(** * Fast-RTPS: the UDPv4 transport and its receiver resource

    A shallow embedding of [src/cpp/transport/UDPv4Transport.cpp] and of
    [src/cpp/rtps/network/ReceiverResource.cpp].

    The transport object is a record holding its configuration and its three
    socket pools.  Every member function is a computation over a [World]:
    the transport together with the log of the socket calls issued so far.
    A computation either returns, lets an exception escape, or blocks.  The
    operating system is an oracle [OS] that decides which socket calls are
    rejected, which IPv4 interfaces the host has and how an asynchronous
    receive completes. *)

From Stdlib Require Import ZArith Lia.
From stdpp Require Import base decidable countable list gmap.

Open Scope Z_scope.

(** ** Computations with state, exceptions and blocking *)

(** The two exception types the sources can meet. *)
Inductive exn : Type :=
| system_error     (* boost::system::system_error, thrown by a socket call *)
| out_of_range.    (* std::out_of_range, thrown by std::map::at *)

Inductive outcome (A : Type) : Type :=
| Returned (a : A)
| Raised (e : exn)
| Blocked.
Arguments Returned {A} a.
Arguments Raised {A} e.
Arguments Blocked {A}.

Definition M (S A : Type) : Type := S -> outcome A * S.

Definition ret {S A} (a : A) : M S A := fun s => (Returned a, s).

Definition bind {S A B} (c : M S A) (k : A -> M S B) : M S B :=
  fun s =>
    match c s with
    | (Returned a, s') => k a s'
    | (Raised e, s') => (Raised e, s')
    | (Blocked, s') => (Blocked, s')
    end.

Definition gets {S A} (f : S -> A) : M S A := fun s => (Returned (f s), s).
Definition modify {S} (f : S -> S) : M S unit := fun s => (Returned tt, f s).
Definition throw {S A} (e : exn) : M S A := fun s => (Raised e, s).

(** [try { body } catch (E const&) { handler }]: [catches] tells which
    exceptions the clause matches. *)
Definition try_catch {S A} (catches : exn -> bool) (body handler : M S A) : M S A :=
  fun s =>
    match body s with
    | (Raised e, s') => if catches e then handler s' else (Raised e, s')
    | r => r
    end.

Definition catch_system_error (e : exn) : bool :=
  match e with system_error => true | out_of_range => false end.
Definition catch_std_exception (e : exn) : bool := true.

Notation "x <~ c ;; k" := (bind c (fun x => k))
  (at level 100, c at next level, right associativity).
Notation "c ;;; k" := (bind c (fun _ => k))
  (at level 100, right associativity).

(** A range-based [for] statement. *)
Fixpoint for_each {S A} (l : list A) (body : A -> M S unit) : M S unit :=
  match l with
  | [] => ret tt
  | x :: l' => body x ;;; for_each l' body
  end.

(** ** Locators *)

Definition octet : Type := Z.

Record Locator_t : Type := mkLocator {
  kind : Z;                (* int32_t *)
  port : Z;                (* uint32_t *)
  address : list octet     (* octet[16] *)
}.

#[global] Instance Locator_t_eq_dec : EqDecision Locator_t.
Proof. solve_decision. Defined.

#[global] Instance Locator_t_countable : Countable Locator_t.
Proof.
  refine (inj_countable' (fun l => (kind l, port l, address l))
                         (fun '(k, p, a) => mkLocator k p a) _).
  intros []; reflexivity.
Defined.

(** The kind tag of UDP over IPv4, fixed by the RTPS wire protocol; the
    macro lives in a header that is not part of the sources at hand. *)
Definition LOCATOR_KIND_UDPv4 : Z := 1.

(** [locator.address[i]]. *)
Definition address_at (l : Locator_t) (i : nat) : octet := default 0 (address l !! i).

(** An IPv4 address, as its four bytes in network order. *)
Definition address_v4 : Type := (octet * octet * octet * octet)%type.
Definition address_v4_any : address_v4 := (0, 0, 0, 0).
Definition to_bytes (ip : address_v4) : list octet :=
  let '(a, b, c, d) := ip in [a; b; c; d].

(** [ip::address_v4::from_string(locator.to_IP4_string())]: the dotted quad
    printed from bytes 12..15 of the address and parsed back. *)
Definition to_IP4 (l : Locator_t) : address_v4 :=
  (address_at l 12, address_at l 13, address_at l 14, address_at l 15).

Definition IsMulticastAddress (locator : Locator_t) : bool :=
  bool_decide (224 <= address_at locator 12) && bool_decide (address_at locator 12 <= 239).

(** ** Sockets and the operating system *)

(** A bound UDP socket, identified by its local endpoint. *)
Record socket : Type := mkSocket {
  local_ip : address_v4;
  local_port : Z           (* uint16_t *)
}.

#[global] Instance socket_eq_dec : EqDecision socket.
Proof. solve_decision. Defined.

Definition endpoint : Type := (address_v4 * Z)%type.

Inductive os_call : Type :=
| sys_open                                         (* socket.open(ip::udp::v4()) *)
| sys_send_buffer_size (n : Z)                     (* set_option(send_buffer_size) *)
| sys_receive_buffer_size (n : Z)                  (* set_option(receive_buffer_size) *)
| sys_reuse_address                                (* set_option(reuse_address(true)) *)
| sys_multicast_loopback                           (* set_option(enable_loopback(true)) *)
| sys_bind (ep : endpoint)                         (* socket.bind(endpoint) *)
| sys_join_group (s : socket) (group : address_v4) (* set_option(join_group(group)) *)
| sys_cancel (s : socket)                          (* socket.cancel() *)
| sys_close (s : socket)                           (* socket.close() *)
| sys_send_to (s : socket) (payload : list octet) (dest : endpoint)
| sys_async_receive_from (s : socket) (capacity : Z).

#[global] Instance os_call_eq_dec : EqDecision os_call.
Proof. solve_decision. Defined.

(** A logged call and whether the system accepted it. *)
Definition os_log : Type := list (os_call * bool).

Inductive IPTYPE : Type := IP4 | IP6.
#[global] Instance IPTYPE_eq_dec : EqDecision IPTYPE.
Proof. solve_decision. Defined.
Record info_IP : Type := mkInfoIP {
  type : IPTYPE;
  name : address_v4        (* the textual address, read by from_string *)
}.

(** What completes an asynchronous receive: an error code (cancellation
    included), or a datagram and the endpoint it came from. *)
Inductive completion : Type :=
| recv_error
| recv_datagram (data : list octet) (sender : endpoint).

Record OS : Type := mkOS {
  (** whether a call is accepted, given everything issued before it; a
      rejected call throws [system_error] *)
  os_accepts : os_log -> os_call -> bool;
  (** [IPFinder::getIPs] *)
  os_getIPs : list info_IP;
  (** how the receive submitted last on a socket completes; [None] when no
      completion ever arrives *)
  os_completion : os_log -> socket -> option completion
}.

(** ** The transport object *)

Record UDPv4Transport : Type := mkTransport {
  mSendBufferSize : Z;
  mReceiveBufferSize : Z;
  mGranularMode : bool;
  mInterfaceWhiteList : list address_v4;
  mInputSockets : gmap Z socket;                   (* port -> socket *)
  mOutputSockets : gmap Z (list socket);           (* port -> sockets *)
  mGranularOutputSockets : gmap Locator_t socket
}.

Record World : Type := mkWorld {
  self : UDPv4Transport;
  oslog : os_log
}.

(** Assignments to one pool of the transport. *)
Definition with_mInputSockets (f : gmap Z socket -> gmap Z socket)
    (t : UDPv4Transport) : UDPv4Transport :=
  mkTransport (mSendBufferSize t) (mReceiveBufferSize t) (mGranularMode t)
    (mInterfaceWhiteList t) (f (mInputSockets t)) (mOutputSockets t)
    (mGranularOutputSockets t).

Definition with_mOutputSockets (f : gmap Z (list socket) -> gmap Z (list socket))
    (t : UDPv4Transport) : UDPv4Transport :=
  mkTransport (mSendBufferSize t) (mReceiveBufferSize t) (mGranularMode t)
    (mInterfaceWhiteList t) (mInputSockets t) (f (mOutputSockets t))
    (mGranularOutputSockets t).

Definition with_mGranularOutputSockets
    (f : gmap Locator_t socket -> gmap Locator_t socket)
    (t : UDPv4Transport) : UDPv4Transport :=
  mkTransport (mSendBufferSize t) (mReceiveBufferSize t) (mGranularMode t)
    (mInterfaceWhiteList t) (mInputSockets t) (mOutputSockets t)
    (f (mGranularOutputSockets t)).

Definition update_self (f : UDPv4Transport -> UDPv4Transport) (w : World) : World :=
  mkWorld (f (self w)) (oslog w).

Definition set_mInputSockets (f : gmap Z socket -> gmap Z socket) : World -> World :=
  update_self (with_mInputSockets f).

Definition set_mOutputSockets (f : gmap Z (list socket) -> gmap Z (list socket))
    : World -> World :=
  update_self (with_mOutputSockets f).

Definition set_mGranularOutputSockets
    (f : gmap Locator_t socket -> gmap Locator_t socket) : World -> World :=
  update_self (with_mGranularOutputSockets f).

Definition log_call (c : os_call) (accepted : bool) (w : World) : World :=
  mkWorld (self w) (oslog w ++ [(c, accepted)]).

(** [std::map::emplace] and [std::map::insert] leave an existing entry alone. *)
Definition map_emplace `{Countable K} {V} (k : K) (v : V) (m : gmap K V) : gmap K V :=
  match m !! k with
  | Some _ => m
  | None => <[k := v]> m
  end.

(** [m[k]] default-constructs the entry when it is missing. *)
Definition map_subscript `{Countable K} {V} (k : K) (m : gmap K (list V)) : gmap K (list V) :=
  match m !! k with
  | Some _ => m
  | None => <[k := []]> m
  end.

Definition push_back {V} (v : V) (l : list V) : list V := l ++ [v].

Definition maximumUDPSocketSize : Z := 65536.

(** The configuration a transport is built from; the whitelist entries are
    the addresses their strings denote. *)
Record UDPv4TransportDescriptor : Type := mkDescriptor {
  sendBufferSize : Z;
  receiveBufferSize : Z;
  granularMode : bool;
  interfaceWhiteList : list address_v4
}.

(** [UDPv4TransportDescriptor()] *)
Definition UDPv4TransportDescriptor_default : UDPv4TransportDescriptor :=
  mkDescriptor maximumUDPSocketSize maximumUDPSocketSize false [].

(** [UDPv4Transport(const UDPv4TransportDescriptor&)]: the three pools start
    empty. *)
Definition UDPv4Transport_new (descriptor : UDPv4TransportDescriptor) : UDPv4Transport :=
  mkTransport (sendBufferSize descriptor) (receiveBufferSize descriptor)
    (granularMode descriptor) (interfaceWhiteList descriptor) ∅ ∅ ∅.

(** [static_cast<uint16_t>(port)] *)
Definition to_uint16 (p : Z) : Z := p `mod` 65536.

Module UDPv4Transport.
Section WithOS.
Variable os : OS.

(** A socket call that throws when the system rejects it. *)
Definition sys (c : os_call) : M World unit :=
  fun w =>
    if os_accepts os (oslog w) c
    then (Returned tt, log_call c true w)
    else (Raised system_error, log_call c false w).

(** [cancel], [close] and the submission of an asynchronous receive, on a
    socket the pool holds open: these are taken to succeed. *)
Definition sys_ok (c : os_call) : M World unit :=
  fun w => (Returned tt, log_call c true w).

Definition IsLocatorSupported (locator : Locator_t) : bool :=
  bool_decide (kind locator = LOCATOR_KIND_UDPv4).

Definition IsInputChannelOpen (t : UDPv4Transport) (locator : Locator_t) : bool :=
  IsLocatorSupported locator && bool_decide (is_Some (mInputSockets t !! port locator)).

Definition IsOutputChannelOpen (t : UDPv4Transport) (locator : Locator_t) : bool :=
  if negb (IsLocatorSupported locator) then false
  else if mGranularMode t
       then bool_decide (is_Some (mGranularOutputSockets t !! locator))
       else bool_decide (is_Some (mOutputSockets t !! port locator)).

Definition GetIP4s : list info_IP :=
  filter (fun ip => type ip = IP4) (os_getIPs os).

Definition IsInterfaceAllowed (t : UDPv4Transport) (ip : address_v4) : bool :=
  match mInterfaceWhiteList t with
  | [] => true
  | _ =>
      if bool_decide (ip = address_v4_any) then true
      else bool_decide (ip ∈ mInterfaceWhiteList t)
  end.

Definition OpenAndBindUnicastOutputSocket (ipAddress : address_v4) (port : Z)
    : M World socket :=
  sys sys_open ;;;
  n <~ gets (fun w => mSendBufferSize (self w)) ;;
  sys (sys_send_buffer_size n) ;;;
  sys (sys_bind (ipAddress, to_uint16 port)) ;;;
  ret (mkSocket ipAddress (to_uint16 port)).

Definition OpenAndBindInputSocket (port : Z) : M World socket :=
  sys sys_open ;;;
  n <~ gets (fun w => mReceiveBufferSize (self w)) ;;
  sys (sys_receive_buffer_size n) ;;;
  sys sys_reuse_address ;;;
  sys sys_multicast_loopback ;;;
  sys (sys_bind (address_v4_any, to_uint16 port)) ;;;
  ret (mkSocket address_v4_any (to_uint16 port)).

(** [mOutputSockets[port].push_back(OpenAndBindUnicastOutputSocket(ip, port))]:
    the entry is reached (and made, when missing) before the socket is. *)
Definition push_back_output (ip : address_v4) (port : Z) : M World unit :=
  modify (set_mOutputSockets (map_subscript port)) ;;;
  s <~ OpenAndBindUnicastOutputSocket ip port ;;
  modify (set_mOutputSockets (alter (push_back s) port)).

Definition OpenAndBindOutputSockets (port : Z) : M World bool :=
  try_catch catch_system_error
    (wl <~ gets (fun w => mInterfaceWhiteList (self w)) ;;
     match wl with
     | [] => push_back_output address_v4_any port
     | _ =>
         for_each GetIP4s (fun infoIP =>
           let ip := name infoIP in
           t <~ gets self ;;
           if IsInterfaceAllowed t ip then push_back_output ip port else ret tt)
     end ;;;
     ret true)
    (modify (set_mOutputSockets (delete port)) ;;;
     ret false).

Definition OpenAndBindGranularOutputSocket (locator : Locator_t) : M World bool :=
  let ip := to_IP4 locator in
  t <~ gets self ;;
  if negb (IsInterfaceAllowed t ip) then ret false
  else
    try_catch catch_system_error
      (s <~ OpenAndBindUnicastOutputSocket (to_IP4 locator) (port locator) ;;
       modify (set_mGranularOutputSockets (map_emplace locator s)) ;;;
       ret true)
      (modify (set_mGranularOutputSockets (delete locator)) ;;;
       ret false).

Definition OpenAndBindInputSockets (port : Z) : M World bool :=
  try_catch catch_system_error
    (s <~ OpenAndBindInputSocket port ;;
     modify (set_mInputSockets (map_emplace port s)) ;;;
     ret true)
    (modify (set_mInputSockets (delete port)) ;;;
     ret false).

Definition OpenOutputChannel (locator : Locator_t) : M World bool :=
  t <~ gets self ;;
  if IsOutputChannelOpen t locator || negb (IsLocatorSupported locator) then ret false
  else if mGranularMode t then OpenAndBindGranularOutputSocket locator
  else OpenAndBindOutputSockets (port locator).

(** [map.at(key)] *)
Definition map_at `{Countable K} {V} (m : gmap K V) (k : K) : M World V :=
  match m !! k with
  | Some v => ret v
  | None => throw out_of_range
  end.

Definition OpenInputChannel (locator : Locator_t) : M World bool :=
  if negb (IsLocatorSupported locator) then ret false
  else
    t <~ gets self ;;
    success <~ (if negb (IsInputChannelOpen t locator)
                then OpenAndBindInputSockets (port locator)
                else ret false) ;;
    t <~ gets self ;;
    (if IsMulticastAddress locator && IsInputChannelOpen t locator
     then
       socket <~ map_at (mInputSockets t) (port locator) ;;
       sys (sys_join_group socket (to_IP4 locator))
     else ret tt) ;;;
    ret success.

Definition CloseOutputChannel (locator : Locator_t) : M World bool :=
  t <~ gets self ;;
  if negb (IsOutputChannelOpen t locator) then ret false
  else
    (if mGranularMode t
     then
       socket <~ map_at (mGranularOutputSockets t) locator ;;
       sys_ok (sys_cancel socket) ;;;
       sys_ok (sys_close socket) ;;;
       modify (set_mGranularOutputSockets (delete locator))
     else
       sockets <~ map_at (mOutputSockets t) (port locator) ;;
       for_each sockets (fun socket =>
         sys_ok (sys_cancel socket) ;;;
         sys_ok (sys_close socket)) ;;;
       modify (set_mOutputSockets (delete (port locator)))) ;;;
    ret true.

Definition CloseInputChannel (locator : Locator_t) : M World bool :=
  t <~ gets self ;;
  if negb (IsInputChannelOpen t locator) then ret false
  else
    socket <~ map_at (mInputSockets t) (port locator) ;;
    sys_ok (sys_cancel socket) ;;;
    sys_ok (sys_close socket) ;;;
    modify (set_mInputSockets (delete (port locator))) ;;;
    ret true.

Definition DoLocatorsMatch (t : UDPv4Transport) (left right : Locator_t) : bool :=
  if mGranularMode t then bool_decide (left = right)
  else bool_decide (port left = port right).

(** [RemoteToMainLocal].  For an unsupported locator the source says
    [return false;] in a function that returns a [Locator_t]: the result is
    whatever locator the implicit conversion of [false] constructs.  The
    constructors of [Locator_t] are declared in a header that is not among
    the sources, so that locator is the parameter [converted_false]. *)
Definition RemoteToMainLocal (converted_false : Locator_t) (remote : Locator_t)
    : Locator_t :=
  if negb (IsLocatorSupported remote) then converted_false
  else
    (* memset(mainLocal.address, 0x00, sizeof(mainLocal.address)) *)
    mkLocator (kind remote) (port remote) (replicate 16 0).

Definition SendThroughSocket (sendBuffer : list octet) (sendBufferSize : Z)
    (remoteLocator : Locator_t) (socket : socket) : M World bool :=
  let destinationEndpoint := (to_IP4 remoteLocator, to_uint16 (port remoteLocator)) in
  try_catch catch_std_exception
    (sys (sys_send_to socket (take (Z.to_nat sendBufferSize) sendBuffer)
            destinationEndpoint) ;;;
     ret true)
    (ret false).

(** The loop [for (auto& socket : sockets) success |= SendThroughSocket(...)]. *)
Fixpoint send_through_all (sendBuffer : list octet) (sendBufferSize : Z)
    (remoteLocator : Locator_t) (sockets : list socket) (success : bool)
    : M World bool :=
  match sockets with
  | [] => ret success
  | socket :: rest =>
      sent <~ SendThroughSocket sendBuffer sendBufferSize remoteLocator socket ;;
      send_through_all sendBuffer sendBufferSize remoteLocator rest (success || sent)
  end.

Definition Send (sendBuffer : list octet) (sendBufferSize : Z)
    (localLocator remoteLocator : Locator_t) : M World bool :=
  t <~ gets self ;;
  if negb (IsOutputChannelOpen t localLocator)
     || bool_decide (sendBufferSize > mSendBufferSize t)
  then ret false
  else
    let success := false in
    if mGranularMode t
    then
      socket <~ map_at (mGranularOutputSockets t) localLocator ;;
      sent <~ SendThroughSocket sendBuffer sendBufferSize remoteLocator socket ;;
      ret (success || sent)
    else
      sockets <~ map_at (mOutputSockets t) (port localLocator) ;;
      send_through_all sendBuffer sendBufferSize remoteLocator sockets success.

(** [EndpointToLocator]: only the port and bytes 12..15 are written. *)
Definition EndpointToLocator (ep : endpoint) (locator : Locator_t) : Locator_t :=
  mkLocator (kind locator) (snd ep)
            (take 12 (address locator) ++ to_bytes (fst ep) ++ drop 16 (address locator)).

(** The caller's buffer and the two reference parameters of [Receive]. *)
Record receive_args : Type := mkReceiveArgs {
  receiveBuffer : list octet;
  receiveBufferSize : Z;
  remoteLocator : Locator_t
}.

(** The thread waits on the semaphore until the completion handler has
    run; with no completion it waits forever. *)
Definition wait_completion (socket : socket) : M World completion :=
  fun w =>
    match os_completion os (oslog w) socket with
    | Some c => (Returned c, w)
    | None => (Blocked, w)
    end.

Definition Receive (receiveBufferCapacity : Z) (localLocator : Locator_t)
    (args : receive_args) : M World (bool * receive_args) :=
  t <~ gets self ;;
  if negb (IsInputChannelOpen t localLocator)
     || bool_decide (receiveBufferCapacity < mReceiveBufferSize t)
  then ret (false, args)
  else
    (* lock scope *)
    t <~ gets self ;;
    if negb (IsInputChannelOpen t localLocator) then ret (false, args)
    else
      socket <~ map_at (mInputSockets t) (port localLocator) ;;
      sys_ok (sys_async_receive_from socket receiveBufferCapacity) ;;;
      c <~ wait_completion socket ;;
      match c with
      | recv_error =>
          ret (false, mkReceiveArgs (receiveBuffer args) 0 (remoteLocator args))
      | recv_datagram data senderEndpoint =>
          let received := take (Z.to_nat receiveBufferCapacity) data in
          let bytes_transferred := Z.of_nat (length received) in
          ret (true,
               mkReceiveArgs
                 (received ++ drop (length received) (receiveBuffer args))
                 bytes_transferred
                 (EndpointToLocator senderEndpoint (remoteLocator args)))
      end.

End WithOS.
End UDPv4Transport.

(** The converting constructor [Locator_t(uint32_t portin)] of the library's
    locator header: kind 1, the given port and the invalid (all-zero)
    address.  [return false] reaches it with port 0. *)
Definition Locator_t_of_port (portin : Z) : Locator_t :=
  mkLocator 1 portin (replicate 16 0).

(** ** The transport capability used by the receiver resource *)

Class TransportInterface (T : Type) : Type := {
  OpenInputChannel : Locator_t -> M T bool;
  CloseInputChannel : Locator_t -> M T bool;
  Receive : Z -> Locator_t -> UDPv4Transport.receive_args ->
            M T (bool * UDPv4Transport.receive_args);
  DoLocatorsMatch : T -> Locator_t -> Locator_t -> bool
}.

#[global] Instance UDPv4_TransportInterface (os : OS) : TransportInterface World := {
  OpenInputChannel := UDPv4Transport.OpenInputChannel os;
  CloseInputChannel := UDPv4Transport.CloseInputChannel;
  Receive := UDPv4Transport.Receive os;
  DoLocatorsMatch := fun w => UDPv4Transport.DoLocatorsMatch (self w)
}.

(** ** The receiver resource *)

Module ReceiverResource.

(** Each [std::function] member is either empty or the closure made by the
    constructor; every such closure captures the transport by reference and
    the locator by value, so it is represented by the captured locator and
    runs on the transport of the world it is called in. *)
Record ReceiverResource : Type := mkReceiverResource {
  mValid : bool;
  Cleanup : option Locator_t;
  ReceiveFromAssociatedChannel : option Locator_t;
  LocatorMapsToManagedChannel : option Locator_t
}.

Section WithTransport.
Context {T : Type} `{TransportInterface T}.

(** [ReceiverResource(TransportInterface& transport, const Locator_t& locator)] *)
Definition new (locator : Locator_t) : M T ReceiverResource :=
  valid <~ OpenInputChannel locator ;;
  if negb valid then ret (mkReceiverResource false None None None)
  else ret (mkReceiverResource true (Some locator) (Some locator) (Some locator)).

Definition Receive (r : ReceiverResource) (receiveBufferCapacity : Z)
    (args : UDPv4Transport.receive_args) : M T (bool * UDPv4Transport.receive_args) :=
  match ReceiveFromAssociatedChannel r with
  | Some locator => Receive receiveBufferCapacity locator args
  | None => ret (false, args)
  end.

(** The move constructor: the members of the new object start empty and are
    swapped with the source's; [mValid] is left uninitialised. *)
Definition move (uninitialised : bool) (rValueResource : ReceiverResource)
    : ReceiverResource * ReceiverResource :=
  (mkReceiverResource uninitialised (Cleanup rValueResource)
     (ReceiveFromAssociatedChannel rValueResource)
     (LocatorMapsToManagedChannel rValueResource),
   mkReceiverResource (mValid rValueResource) None None None).

Definition SupportsLocator (r : ReceiverResource) (transport : T)
    (localLocator : Locator_t) : bool :=
  match LocatorMapsToManagedChannel r with
  | Some locator => DoLocatorsMatch transport locator localLocator
  | None => false
  end.

Definition Abort (r : ReceiverResource) : M T unit :=
  match Cleanup r with
  | Some locator => CloseInputChannel locator ;;; ret tt
  | None => ret tt
  end.

(** [~ReceiverResource()] *)
Definition destroy (r : ReceiverResource) : M T unit :=
  match Cleanup r with
  | Some locator => CloseInputChannel locator ;;; ret tt
  | None => ret tt
  end.

End WithTransport.
End ReceiverResource.

(** ** Concrete worlds used to exercise the statements *)

(** A locator of the given kind and port whose address carries the IPv4
    address in bytes 12..15. *)
Definition locator_of (k p : Z) (ip : address_v4) : Locator_t :=
  mkLocator k p (replicate 12 0 ++ to_bytes ip).

(** A transport fresh from its constructor, nothing logged yet. *)
Definition fresh_world (granular : bool) (whitelist : list address_v4) : World :=
  mkWorld (UDPv4Transport_new
             (mkDescriptor maximumUDPSocketSize maximumUDPSocketSize granular whitelist))
          [].

(** A host with a loopback and one ethernet interface (and an IPv6 entry,
    which [GetIP4s] drops). *)
Definition two_interfaces : list info_IP :=
  [mkInfoIP IP4 (127, 0, 0, 1); mkInfoIP IP6 (0, 0, 0, 0); mkInfoIP IP4 (192, 168, 1, 10)].

(** A system that accepts every call; a receive completes with an error. *)
Definition os_accept_all : OS :=
  mkOS (fun _ _ => true) two_interfaces (fun _ _ => Some recv_error).

Definition is_join_group (c : os_call) : bool :=
  match c with sys_join_group _ _ => true | _ => false end.

(** A system that accepts everything but joining a multicast group. *)
Definition os_reject_join : OS :=
  mkOS (fun _ c => negb (is_join_group c)) two_interfaces (fun _ _ => Some recv_error).

(** A system on which joining a group a second time on the same socket is
    refused (the membership exists already); everything else is accepted. *)
Definition os_reject_duplicate_join : OS :=
  mkOS (fun log c => negb (is_join_group c && bool_decide ((c, true) ∈ log)))
       two_interfaces (fun _ _ => Some recv_error).

Definition is_bind_to (ip : address_v4) (c : os_call) : bool :=
  match c with sys_bind (ip', _) => bool_decide (ip' = ip) | _ => false end.

(** A system that refuses to bind to one given local address. *)
Definition os_reject_bind (ip : address_v4) : OS :=
  mkOS (fun _ c => negb (is_bind_to ip c)) two_interfaces (fun _ _ => Some recv_error).

(** The fresh shared-mode transport after one input channel, respectively
    one output channel, was opened on a system that accepts every call. *)
Definition world_with_input (locator : Locator_t) : World :=
  snd (UDPv4Transport.OpenInputChannel os_accept_all locator (fresh_world false [])).

Definition world_with_output (granularMode : bool) (locator : Locator_t) : World :=
  snd (UDPv4Transport.OpenOutputChannel os_accept_all locator
         (fresh_world granularMode [])).

(** The same transport with the input and the output channel of a locator
    both open. *)
Definition world_with_both (locator : Locator_t) : World :=
  snd (UDPv4Transport.OpenOutputChannel os_accept_all locator (world_with_input locator)).

(** ** Assumptions on the system *)

(** The calls [OpenAndBindInputSocket] issues for a port, in order. *)
Definition input_socket_calls (t : UDPv4Transport) (p : Z) : list os_call :=
  [sys_open; sys_receive_buffer_size (mReceiveBufferSize t); sys_reuse_address;
   sys_multicast_loopback; sys_bind (address_v4_any, to_uint16 p)].

(** The calls [OpenAndBindUnicastOutputSocket] issues for an address and a
    port, in order. *)
Definition output_socket_calls (t : UDPv4Transport) (ip : address_v4) (p : Z)
    : list os_call :=
  [sys_open; sys_send_buffer_size (mSendBufferSize t); sys_bind (ip, to_uint16 p)].

(** The system accepts each of the given calls whenever it is issued. *)
Definition accepts_always (os : OS) (calls : list os_call) : Prop :=
  forall (log : os_log) (c : os_call), c ∈ calls -> os_accepts os log c = true.

Definition logged_accepted (calls : list os_call) : os_log :=
  map (fun c => (c, true)) calls.

(** The entry of a port in the shared output pool after the sockets [new]
    were pushed into it one by one; pushing nothing does not make one. *)
Definition pushed (new : list socket) (cur : option (list socket))
    : option (list socket) :=
  match new with
  | [] => cur
  | _ => Some (default [] cur ++ new)
  end.

(** The socket [OpenAndBindUnicastOutputSocket] returns for an address. *)
Definition output_socket (p : Z) (ip : address_v4) : socket := mkSocket ip (to_uint16 p).

(** The sockets a shared output channel holds (none when it has no entry). *)
Definition shared_sockets (t : UDPv4Transport) (p : Z) : list socket :=
  default [] (mOutputSockets t !! p).

(** The host addresses that pass [IsInterfaceAllowed], in the order
    [GetIP4s] lists them. *)
Definition allowed_interfaces (os : OS) (t : UDPv4Transport) : list address_v4 :=
  filter (fun ip => UDPv4Transport.IsInterfaceAllowed t ip = true)
         (name <$> UDPv4Transport.GetIP4s os).

(** ** Vocabulary of the statements *)

(** Every logged call was accepted; some logged call was rejected. *)
Definition accepted (evs : os_log) : Prop := Forall (fun e => snd e = true) evs.
Definition rejected (evs : os_log) : Prop := Exists (fun e => snd e = false) evs.

(** [syscalls_at c w v]: run in [w], the computation [c] only talks to the
    system.  The transport is untouched and the log is extended; [c] returns
    [v] if every call was accepted and lets [system_error] escape otherwise. *)
Definition syscalls_at {A} (c : M World A) (w : World) (v : A) : Prop :=
  exists evs : os_log,
    self (snd (c w)) = self w /\
    oslog (snd (c w)) = oslog w ++ evs /\
    match fst (c w) with
    | Returned a => a = v /\ accepted evs
    | Raised e => e = system_error /\ ~ accepted evs
    | Blocked => False
    end.

(** [output_step p Q c w]: run in [w], the computation [c] changes at most
    the entry of port [p] in the shared output pool, extends the log, and
    either returns a value satisfying [Q] with every call accepted, or lets
    [system_error] escape after a rejected call. *)
Definition output_step (p : Z) {A} (Q : A -> Prop) (c : M World A) (w : World) : Prop :=
  exists (evs : os_log) (f : option (list socket) -> option (list socket)),
    self (snd (c w)) = with_mOutputSockets (partial_alter f p) (self w) /\
    oslog (snd (c w)) = oslog w ++ evs /\
    match fst (c w) with
    | Returned a => Q a /\ accepted evs
    | Raised e => e = system_error /\ ~ accepted evs
    | Blocked => False
    end.

(** ** Vocabulary of the further statements *)

(** What a run of socket calls leaves in the log when issued one after the
    other from the log [log]: each call with the system's answer, up to and
    including the first rejected one; and whether all were accepted. *)
Fixpoint attempt (os : OS) (log : os_log) (calls : list os_call) : os_log * bool :=
  match calls with
  | [] => ([], true)
  | c :: rest =>
      if os_accepts os log c
      then let '(evs, ok) := attempt os (log ++ [(c, true)]) rest in ((c, true) :: evs, ok)
      else ([(c, false)], false)
  end.

(** The sockets a successful shared-mode open pushes for a port. *)
Definition opened_sockets (os : OS) (t : UDPv4Transport) (p : Z) : list socket :=
  output_socket p <$>
    match mInterfaceWhiteList t with
    | [] => [address_v4_any]
    | _ => allowed_interfaces os t
    end.

(** The sockets [Send] transmits on for a local locator. *)
Definition channel_sockets (t : UDPv4Transport) (locator : Locator_t) : list socket :=
  if mGranularMode t
  then match mGranularOutputSockets t !! locator with Some s => [s] | None => [] end
  else shared_sockets t (port locator).

(** The log entries of sending one payload to one destination on each of
    the given sockets in turn, each with the system's answer. *)
Fixpoint transmissions (os : OS) (log : os_log) (payload : list octet) (dest : endpoint)
    (sockets : list socket) : os_log :=
  match sockets with
  | [] => []
  | s :: rest =>
      let ev := (sys_send_to s payload dest, os_accepts os log (sys_send_to s payload dest)) in
      ev :: transmissions os (log ++ [ev]) payload dest rest
  end.


(** The configuration part of a transport. *)
Definition configuration (t : UDPv4Transport) : UDPv4TransportDescriptor :=
  mkDescriptor (mSendBufferSize t) (mReceiveBufferSize t) (mGranularMode t)
    (mInterfaceWhiteList t).

(** A call of one of the public operations of the transport. *)
Inductive call : Type :=
| call_OpenInputChannel (locator : Locator_t)
| call_CloseInputChannel (locator : Locator_t)
| call_OpenOutputChannel (locator : Locator_t)
| call_CloseOutputChannel (locator : Locator_t)
| call_Send (sendBuffer : list octet) (sendBufferSize : Z)
            (localLocator remoteLocator : Locator_t)
| call_Receive (receiveBufferCapacity : Z) (localLocator : Locator_t)
               (args : UDPv4Transport.receive_args).

(** The world a call leaves behind, however it ends. *)
Definition after (os : OS) (c : call) (w : World) : World :=
  match c with
  | call_OpenInputChannel L => snd (UDPv4Transport.OpenInputChannel os L w)
  | call_CloseInputChannel L => snd (UDPv4Transport.CloseInputChannel L w)
  | call_OpenOutputChannel L => snd (UDPv4Transport.OpenOutputChannel os L w)
  | call_CloseOutputChannel L => snd (UDPv4Transport.CloseOutputChannel L w)
  | call_Send b n l r => snd (UDPv4Transport.Send os b n l r w)
  | call_Receive n l a => snd (UDPv4Transport.Receive os n l a w)
  end.


(** * Properties *)

(** ** Remote-to-local normalisation *)

(** C2, amended: for every supported (UDPv4) locator, [RemoteToMainLocal]
    keeps kind and port and returns the sixteen address bytes all zero. *)
Theorem RemoteToMainLocal_supported (converted_false remote : Locator_t) :
  UDPv4Transport.IsLocatorSupported remote = true ->
  let mainLocal := UDPv4Transport.RemoteToMainLocal converted_false remote in
  kind mainLocal = kind remote /\
  port mainLocal = port remote /\
  address mainLocal = replicate 16 0.
Proof.
  intros Hsup. unfold UDPv4Transport.RemoteToMainLocal.
  rewrite Hsup. simpl. auto.
Qed.

Lemma RemoteToMainLocal_supported_witness :
  let remote := locator_of LOCATOR_KIND_UDPv4 7400 (192, 168, 1, 10) in
  let mainLocal := UDPv4Transport.RemoteToMainLocal (Locator_t_of_port 0) remote in
  kind mainLocal = kind remote /\
  port mainLocal = port remote /\
  address mainLocal = replicate 16 0.
Proof.
  apply (RemoteToMainLocal_supported (Locator_t_of_port 0)
           (locator_of LOCATOR_KIND_UDPv4 7400 (192, 168, 1, 10))).
  reflexivity.
Defined.

(** For an unsupported locator the result does not depend on the argument
    at all. *)
Lemma RemoteToMainLocal_unsupported (converted_false remote : Locator_t) :
  UDPv4Transport.IsLocatorSupported remote = false ->
  UDPv4Transport.RemoteToMainLocal converted_false remote = converted_false.
Proof.
  intros Hsup. unfold UDPv4Transport.RemoteToMainLocal. now rewrite Hsup.
Qed.

(** Hence, whatever locator [false] converts to, some locator loses its
    kind: two unsupported locators of different kinds get the same result. *)
Lemma RemoteToMainLocal_kind_not_kept_in_general (converted_false : Locator_t) :
  exists remote : Locator_t,
    kind (UDPv4Transport.RemoteToMainLocal converted_false remote) <> kind remote.
Proof.
  destruct (decide (kind converted_false = 2)) as [E | E].
  - exists (mkLocator 3 0 (replicate 16 0)).
    rewrite RemoteToMainLocal_unsupported by reflexivity.
    simpl. lia.
  - exists (mkLocator 2 0 (replicate 16 0)).
    rewrite RemoteToMainLocal_unsupported by reflexivity.
    simpl. exact E.
Qed.

(** C2, as stated, fails: a locator of kind 2 on port 7400 comes back with
    kind 1 and port 0. *)
Lemma RemoteToMainLocal_unsupported_counterexample :
  let remote := locator_of 2 7400 (192, 168, 1, 10) in
  let mainLocal := UDPv4Transport.RemoteToMainLocal (Locator_t_of_port 0) remote in
  kind mainLocal <> kind remote /\ port mainLocal <> port remote.
Proof. simpl. split; lia. Qed.

(** ** Running computations *)

Lemma bind_gets {S A B} (f : S -> A) (k : A -> M S B) (s : S) :
  bind (gets f) k s = k (f s) s.
Proof. reflexivity. Qed.

Lemma bind_ret {S A B} (a : A) (k : A -> M S B) (s : S) :
  bind (ret a) k s = k a s.
Proof. reflexivity. Qed.

Lemma bind_modify {S B} (f : S -> S) (k : unit -> M S B) (s : S) :
  bind (modify f) k s = k tt (f s).
Proof. reflexivity. Qed.

Lemma bind_Returned {S A B} (c : M S A) (k : A -> M S B) (s s' : S) (a : A) :
  c s = (Returned a, s') -> bind c k s = k a s'.
Proof. intros E. unfold bind. now rewrite E. Qed.

Lemma bind_Raised {S A B} (c : M S A) (k : A -> M S B) (s s' : S) (e : exn) :
  c s = (Raised e, s') -> bind c k s = (Raised e, s').
Proof. intros E. unfold bind. now rewrite E. Qed.

Lemma try_catch_Returned {S A} (catches : exn -> bool) (body handler : M S A)
    (s s' : S) (a : A) :
  body s = (Returned a, s') -> try_catch catches body handler s = (Returned a, s').
Proof. intros E. unfold try_catch. now rewrite E. Qed.

Lemma try_catch_Raised {S A} (catches : exn -> bool) (body handler : M S A)
    (s s' : S) (e : exn) :
  body s = (Raised e, s') -> catches e = true ->
  try_catch catches body handler s = handler s'.
Proof. intros E C. unfold try_catch. now rewrite E, C. Qed.

(** ** Size bounds on transfers *)

(** C5: a send larger than the configured send size, and a receive into a
    buffer smaller than the configured receive size, return false and leave
    the world as it was: no socket call is logged, whether or not the
    channel is open. *)
Theorem size_bound_rejected_before_io (os : OS) (w : World)
    (sendBuffer : list octet) (sendBufferSize receiveBufferCapacity : Z)
    (localLocator remoteLocator : Locator_t) (args : UDPv4Transport.receive_args) :
  (sendBufferSize > mSendBufferSize (self w) ->
   UDPv4Transport.Send os sendBuffer sendBufferSize localLocator remoteLocator w
   = (Returned false, w)) /\
  (receiveBufferCapacity < mReceiveBufferSize (self w) ->
   UDPv4Transport.Receive os receiveBufferCapacity localLocator args w
   = (Returned (false, args), w)).
Proof.
  split; intros Hsize.
  - unfold UDPv4Transport.Send. rewrite bind_gets.
    rewrite (bool_decide_eq_true_2 _ Hsize), orb_true_r. reflexivity.
  - unfold UDPv4Transport.Receive. rewrite bind_gets.
    rewrite (bool_decide_eq_true_2 _ Hsize), orb_true_r. reflexivity.
Qed.

Lemma size_bound_rejected_before_io_witness :
  let L := locator_of LOCATOR_KIND_UDPv4 7400 (0, 0, 0, 0) in
  let R := locator_of LOCATOR_KIND_UDPv4 7411 (192, 168, 1, 20) in
  let args := UDPv4Transport.mkReceiveArgs [] 42 R in
  UDPv4Transport.IsOutputChannelOpen (self (world_with_output false L)) L = true /\
  UDPv4Transport.Send os_accept_all [] 65537 L R (world_with_output false L)
  = (Returned false, world_with_output false L) /\
  UDPv4Transport.IsInputChannelOpen (self (world_with_input L)) L = true /\
  UDPv4Transport.Receive os_accept_all 65535 L args (world_with_input L)
  = (Returned (false, args), world_with_input L).
Proof.
  intros L R args. split; [| split; [| split]].
  - vm_compute. reflexivity.
  - apply (proj1 (size_bound_rejected_before_io os_accept_all
                    (world_with_output false L) [] 65537 65535 L R args)).
    vm_compute. reflexivity.
  - vm_compute. reflexivity.
  - apply (proj2 (size_bound_rejected_before_io os_accept_all
                    (world_with_input L) [] 65537 65535 L R args)).
    vm_compute. reflexivity.
Defined.

(** ** What a failing [Receive] leaves in its reference parameters *)

(** C9: when the input channel is not open, or the capacity is below the
    configured receive size, [Receive] returns false with the buffer, the
    size and the remote locator exactly as the caller passed them, and logs
    nothing; when a request was submitted and completes with an error, the
    size (and only the size) is set to zero. *)
Theorem Receive_fail_fast_keeps_out_parameters (os : OS) (w : World)
    (receiveBufferCapacity : Z) (localLocator : Locator_t)
    (args : UDPv4Transport.receive_args) :
  (UDPv4Transport.IsInputChannelOpen (self w) localLocator = false \/
   receiveBufferCapacity < mReceiveBufferSize (self w) ->
   UDPv4Transport.Receive os receiveBufferCapacity localLocator args w
   = (Returned (false, args), w)) /\
  (forall socket : socket,
     UDPv4Transport.IsInputChannelOpen (self w) localLocator = true ->
     mReceiveBufferSize (self w) <= receiveBufferCapacity ->
     mInputSockets (self w) !! port localLocator = Some socket ->
     os_completion os
       (oslog w ++ [(sys_async_receive_from socket receiveBufferCapacity, true)]) socket
     = Some recv_error ->
     UDPv4Transport.Receive os receiveBufferCapacity localLocator args w
     = (Returned (false,
                  UDPv4Transport.mkReceiveArgs (UDPv4Transport.receiveBuffer args) 0
                    (UDPv4Transport.remoteLocator args)),
        log_call (sys_async_receive_from socket receiveBufferCapacity) true w)).
Proof.
  split.
  - intros Hpre. unfold UDPv4Transport.Receive. rewrite bind_gets.
    destruct Hpre as [Hclosed | Hsmall].
    + now rewrite Hclosed.
    + rewrite (bool_decide_eq_true_2 _ Hsmall), orb_true_r. reflexivity.
  - intros socket Hopen Hcap Hsock Hdone.
    unfold UDPv4Transport.Receive. rewrite bind_gets, Hopen.
    rewrite bool_decide_eq_false_2 by lia. cbn [negb orb].
    rewrite bind_gets, Hopen. cbn [negb].
    unfold UDPv4Transport.map_at. rewrite Hsock, bind_ret.
    unfold UDPv4Transport.sys_ok, UDPv4Transport.wait_completion, bind.
    unfold log_call at 1. simpl oslog. rewrite Hdone. reflexivity.
Qed.

Lemma Receive_fail_fast_keeps_out_parameters_witness :
  let args := UDPv4Transport.mkReceiveArgs [1; 2; 3] 42
                (locator_of LOCATOR_KIND_UDPv4 9 (10, 0, 0, 7)) in
  let L := locator_of LOCATOR_KIND_UDPv4 7400 (0, 0, 0, 0) in
  let s := mkSocket address_v4_any 7400 in
  UDPv4Transport.Receive os_accept_all 65536 L args (fresh_world false [])
  = (Returned (false, args), fresh_world false []) /\
  UDPv4Transport.Receive os_accept_all 100 L args (world_with_input L)
  = (Returned (false, args), world_with_input L) /\
  UDPv4Transport.Receive os_accept_all 65536 L args (world_with_input L)
  = (Returned (false, UDPv4Transport.mkReceiveArgs [1; 2; 3] 0
                        (locator_of LOCATOR_KIND_UDPv4 9 (10, 0, 0, 7))),
     log_call (sys_async_receive_from s 65536) true (world_with_input L)).
Proof.
  intros args L s. split; [| split].
  - apply (proj1 (Receive_fail_fast_keeps_out_parameters os_accept_all
                    (fresh_world false []) 65536 L args)).
    left. reflexivity.
  - apply (proj1 (Receive_fail_fast_keeps_out_parameters os_accept_all
                    (world_with_input L) 100 L args)).
    right. vm_compute. reflexivity.
  - apply (proj2 (Receive_fail_fast_keeps_out_parameters os_accept_all
                    (world_with_input L) 65536 L args) s).
    + vm_compute. reflexivity.
    + vm_compute. discriminate.
    + vm_compute. reflexivity.
    + reflexivity.
Defined.

(** ** Receiver resources that failed to open their channel *)

Section AnyTransport.
Context {T : Type} `{TransportInterface T}.

(** The constructor leaves an invalid resource with its three members
    empty, and a valid one with all three bound to the locator. *)
Lemma new_members (locator : Locator_t) (t t' : T) (r : ReceiverResource.ReceiverResource) :
  ReceiverResource.new locator t = (Returned r, t') ->
  (ReceiverResource.mValid r = false /\
   r = ReceiverResource.mkReceiverResource false None None None /\
   OpenInputChannel locator t = (Returned false, t')) \/
  (ReceiverResource.mValid r = true /\
   r = ReceiverResource.mkReceiverResource true (Some locator) (Some locator) (Some locator) /\
   OpenInputChannel locator t = (Returned true, t')).
Proof.
  unfold ReceiverResource.new, bind.
  destruct (OpenInputChannel locator t) as [[[] | e |] t1]; cbn [negb ret];
    intros E; inversion E; subst; auto.
Qed.

(** C8: a receiver resource whose construction failed to open its input
    channel answers false to every [Receive], without running the transport
    (its state and the caller's parameters are returned untouched, for any
    transport behind the interface), and false to every [SupportsLocator]. *)
Theorem invalid_resource_is_inert (locator : Locator_t) (t t' : T)
    (r : ReceiverResource.ReceiverResource) :
  ReceiverResource.new locator t = (Returned r, t') ->
  ReceiverResource.mValid r = false ->
  (forall (receiveBufferCapacity : Z) (args : UDPv4Transport.receive_args) (t2 : T),
     ReceiverResource.Receive r receiveBufferCapacity args t2
     = (Returned (false, args), t2)) /\
  (forall (t2 : T) (localLocator : Locator_t),
     ReceiverResource.SupportsLocator r t2 localLocator = false).
Proof.
  intros Hnew Hinvalid.
  destruct (new_members _ _ _ _ Hnew) as [(_ & -> & _) | (Hvalid & _ & _)].
  - split; reflexivity.
  - congruence.
Qed.

End AnyTransport.

Lemma invalid_resource_is_inert_witness :
  let L := locator_of 2 7400 (0, 0, 0, 0) in
  let r := ReceiverResource.mkReceiverResource false None None None in
  (forall (receiveBufferCapacity : Z) (args : UDPv4Transport.receive_args) (t2 : World),
     ReceiverResource.Receive (H := UDPv4_TransportInterface os_accept_all)
       r receiveBufferCapacity args t2
     = (Returned (false, args), t2)) /\
  (forall (t2 : World) (localLocator : Locator_t),
     ReceiverResource.SupportsLocator (H := UDPv4_TransportInterface os_accept_all)
       r t2 localLocator = false).
Proof.
  intros L r.
  apply (invalid_resource_is_inert (H := UDPv4_TransportInterface os_accept_all)
           L (fresh_world false []) (fresh_world false []) r).
  - reflexivity.
  - reflexivity.
Defined.

(** ** Reasoning about socket calls *)

Lemma accepted_app (evs1 evs2 : os_log) :
  accepted (evs1 ++ evs2) <-> accepted evs1 /\ accepted evs2.
Proof. apply Forall_app. Qed.

Lemma syscalls_at_ret {A} (a : A) (w : World) : syscalls_at (ret a) w a.
Proof.
  exists []. cbn. rewrite app_nil_r. repeat split. constructor.
Qed.

Lemma syscalls_at_gets {A} (f : World -> A) (w : World) : syscalls_at (gets f) w (f w).
Proof.
  exists []. cbn. rewrite app_nil_r. repeat split. constructor.
Qed.

Lemma syscalls_at_sys (os : OS) (c : os_call) (w : World) :
  syscalls_at (UDPv4Transport.sys os c) w tt.
Proof.
  unfold syscalls_at, UDPv4Transport.sys.
  destruct (os_accepts os (oslog w) c).
  - exists [(c, true)]. cbn. repeat split. repeat constructor.
  - exists [(c, false)]. cbn. repeat split.
    intros Hacc. apply Forall_inv in Hacc. discriminate.
Qed.

Lemma syscalls_at_bind {A B} (c : M World A) (k : A -> M World B) (w : World)
    (v1 : A) (v2 : B) :
  syscalls_at c w v1 ->
  (forall w1, self w1 = self w -> syscalls_at (k v1) w1 v2) ->
  syscalls_at (bind c k) w v2.
Proof.
  intros (evs1 & Hself1 & Hlog1 & Hres1) Hk. unfold syscalls_at, bind.
  destruct (c w) as [[a | e |] w1]; cbn in *.
  - destruct Hres1 as [-> Hacc1].
    destruct (Hk w1 Hself1) as (evs2 & Hself2 & Hlog2 & Hres2).
    exists (evs1 ++ evs2). rewrite Hself2, Hlog2, Hlog1, Hself1, app_assoc.
    repeat split.
    destruct (fst (k v1 w1)); rewrite ?accepted_app; tauto.
  - exists evs1. tauto.
  - contradiction.
Qed.

Lemma OpenAndBindUnicastOutputSocket_syscalls (os : OS) (ip : address_v4) (p : Z)
    (w : World) :
  syscalls_at (UDPv4Transport.OpenAndBindUnicastOutputSocket os ip p) w
              (mkSocket ip (to_uint16 p)).
Proof.
  unfold UDPv4Transport.OpenAndBindUnicastOutputSocket.
  repeat first
    [ apply syscalls_at_ret
    | eapply syscalls_at_bind;
        [ first [ apply syscalls_at_sys | apply syscalls_at_gets ] | intros ? ? ] ].
Qed.

Lemma OpenAndBindInputSocket_syscalls (os : OS) (p : Z) (w : World) :
  syscalls_at (UDPv4Transport.OpenAndBindInputSocket os p) w
              (mkSocket address_v4_any (to_uint16 p)).
Proof.
  unfold UDPv4Transport.OpenAndBindInputSocket.
  repeat first
    [ apply syscalls_at_ret
    | eapply syscalls_at_bind;
        [ first [ apply syscalls_at_sys | apply syscalls_at_gets ] | intros ? ? ] ].
Qed.

(** When the system accepts a call, [sys] returns. *)
Lemma sys_accepted (os : OS) (c : os_call) (w : World) :
  os_accepts os (oslog w) c = true ->
  UDPv4Transport.sys os c w = (Returned tt, log_call c true w).
Proof. intros E. unfold UDPv4Transport.sys. now rewrite E. Qed.

Lemma sys_rejected (os : OS) (c : os_call) (w : World) :
  os_accepts os (oslog w) c = false ->
  UDPv4Transport.sys os c w = (Raised system_error, log_call c false w).
Proof. intros E. unfold UDPv4Transport.sys. now rewrite E. Qed.

(** ** Opening and closing input channels *)

Lemma IsInputChannelOpen_true (t : UDPv4Transport) (locator : Locator_t) :
  UDPv4Transport.IsInputChannelOpen t locator = true <->
  kind locator = LOCATOR_KIND_UDPv4 /\ is_Some (mInputSockets t !! port locator).
Proof.
  unfold UDPv4Transport.IsInputChannelOpen, UDPv4Transport.IsLocatorSupported.
  rewrite andb_true_iff, !bool_decide_eq_true. reflexivity.
Qed.

Lemma IsInputChannelOpen_false (t : UDPv4Transport) (locator : Locator_t) :
  UDPv4Transport.IsLocatorSupported locator = true ->
  UDPv4Transport.IsInputChannelOpen t locator = false ->
  mInputSockets t !! port locator = None.
Proof.
  unfold UDPv4Transport.IsInputChannelOpen. intros ->. cbn.
  rewrite bool_decide_eq_false, <- eq_None_not_Some. auto.
Qed.

(** What [OpenAndBindInputSockets] does: it never throws; it returns true
    with the socket emplaced, or false with the entry of the port erased. *)
Lemma OpenAndBindInputSockets_spec (os : OS) (p : Z) (w : World) :
  exists (w1 : World) (evs : os_log),
    self w1 = self w /\ oslog w1 = oslog w ++ evs /\
    ((accepted evs /\
      UDPv4Transport.OpenAndBindInputSockets os p w
      = (Returned true,
         set_mInputSockets (map_emplace p (mkSocket address_v4_any (to_uint16 p))) w1)) \/
     (~ accepted evs /\
      UDPv4Transport.OpenAndBindInputSockets os p w
      = (Returned false, set_mInputSockets (delete p) w1))).
Proof.
  destruct (OpenAndBindInputSocket_syscalls os p w) as (evs & Hself & Hlog & Hres).
  unfold UDPv4Transport.OpenAndBindInputSockets.
  destruct (UDPv4Transport.OpenAndBindInputSocket os p w) as [[s | e |] w1] eqn:E;
    cbn in Hself, Hlog, Hres.
  - destruct Hres as [-> Hacc]. exists w1, evs. repeat split; auto. left. split; auto.
    apply try_catch_Returned. now rewrite (bind_Returned _ _ _ _ _ E).
  - destruct Hres as [-> Hrej]. exists w1, evs. repeat split; auto. right. split; auto.
    rewrite (try_catch_Raised _ _ _ w w1 system_error);
      [reflexivity | now rewrite (bind_Raised _ _ _ _ _ E) | reflexivity].
  - contradiction.
Qed.

Lemma map_at_Some `{Countable K} {V} (m : gmap K V) (k : K) (v : V) :
  m !! k = Some v -> UDPv4Transport.map_at m k = ret v.
Proof. intros E. unfold UDPv4Transport.map_at. now rewrite E. Qed.

(** The silent join at the end of [OpenInputChannel] only talks to the
    system. *)
Lemma join_group_syscalls (os : OS) (locator : Locator_t) (t : UDPv4Transport)
    (w : World) :
  syscalls_at
    (if IsMulticastAddress locator && UDPv4Transport.IsInputChannelOpen t locator
     then
       socket <~ UDPv4Transport.map_at (mInputSockets t) (port locator) ;;
       UDPv4Transport.sys os (sys_join_group socket (to_IP4 locator))
     else ret tt) w tt.
Proof.
  destruct (IsMulticastAddress locator); cbn [andb]; [| apply syscalls_at_ret].
  destruct (UDPv4Transport.IsInputChannelOpen t locator) eqn:Hopen;
    [| apply syscalls_at_ret].
  apply IsInputChannelOpen_true in Hopen as [_ [s Hs]].
  rewrite (map_at_Some _ _ _ Hs).
  eapply syscalls_at_bind; [apply syscalls_at_ret | intros ? ?; apply syscalls_at_sys].
Qed.

Lemma CloseInputChannel_closed (locator : Locator_t) (w : World) :
  UDPv4Transport.IsInputChannelOpen (self w) locator = false ->
  UDPv4Transport.CloseInputChannel locator w = (Returned false, w).
Proof.
  intros Hclosed. unfold UDPv4Transport.CloseInputChannel.
  now rewrite bind_gets, Hclosed.
Qed.

Lemma CloseInputChannel_open (locator : Locator_t) (w : World) (s : socket) :
  kind locator = LOCATOR_KIND_UDPv4 ->
  mInputSockets (self w) !! port locator = Some s ->
  UDPv4Transport.CloseInputChannel locator w
  = (Returned true,
     set_mInputSockets (delete (port locator))
       (log_call (sys_close s) true (log_call (sys_cancel s) true w))).
Proof.
  intros Hkind Hs. unfold UDPv4Transport.CloseInputChannel. rewrite bind_gets.
  rewrite (proj2 (IsInputChannelOpen_true _ _)) by eauto. cbn [negb].
  now rewrite (map_at_Some _ _ _ Hs).
Qed.

Lemma IsInputChannelOpen_erased (locator : Locator_t) (w : World) :
  UDPv4Transport.IsInputChannelOpen
    (self (set_mInputSockets (delete (port locator)) w)) locator = false.
Proof.
  unfold UDPv4Transport.IsInputChannelOpen. cbn.
  rewrite lookup_delete_eq, bool_decide_eq_false_2, andb_false_r; [done |].
  intros [? ?]; discriminate.
Qed.

(** A computation that only talks to the system, followed by [return b]. *)
Lemma syscalls_then_ret {A B} (c : M World A) (w : World) (v : A) (b : B) :
  syscalls_at c w v ->
  exists w' : World,
    self w' = self w /\
    (bind c (fun _ => ret b) w = (Returned b, w') \/
     bind c (fun _ => ret b) w = (Raised system_error, w')).
Proof.
  intros (evs & Hself & _ & Hres). unfold bind.
  destruct (c w) as [[a | e |] w']; cbn in Hself, Hres.
  - exists w'. auto.
  - destruct Hres as [-> _]. exists w'. auto.
  - contradiction.
Qed.

Lemma OpenInputChannel_true_opens (os : OS) (locator : Locator_t) (w w1 : World) :
  UDPv4Transport.OpenInputChannel os locator w = (Returned true, w1) ->
  UDPv4Transport.IsInputChannelOpen (self w1) locator = true.
Proof.
  unfold UDPv4Transport.OpenInputChannel.
  destruct (UDPv4Transport.IsLocatorSupported locator) eqn:Hsup; cbn [negb];
    [| discriminate].
  rewrite bind_gets.
  destruct (UDPv4Transport.IsInputChannelOpen (self w) locator) eqn:Hopen; cbn [negb].
  - rewrite bind_ret, bind_gets.
    destruct (syscalls_then_ret _ _ _ false (join_group_syscalls os locator (self w) w))
      as (w' & _ & [-> | ->]); discriminate.
  - destruct (OpenAndBindInputSockets_spec os (port locator) w)
      as (w' & evs & Hself & Hlog & [[_ E] | [_ E]]);
      rewrite (bind_Returned _ _ _ _ _ E), bind_gets.
    + set (w2 := set_mInputSockets _ w').
      destruct (syscalls_then_ret _ _ _ true (join_group_syscalls os locator (self w2) w2))
        as (w3 & Hself3 & [-> | ->]); [| discriminate].
      intros [= <-]. rewrite Hself3. apply IsInputChannelOpen_true.
      split; [now apply bool_decide_eq_true in Hsup |].
      subst w2. cbn. unfold map_emplace.
      destruct (mInputSockets (self w') !! port locator) eqn:Hl; [eauto |].
      rewrite lookup_insert_eq. eauto.
    + set (w2 := set_mInputSockets _ w').
      destruct (syscalls_then_ret _ _ _ false (join_group_syscalls os locator (self w2) w2))
        as (w3 & _ & [-> | ->]); discriminate.
Qed.

(** C6: once [OpenInputChannel] has returned true for a locator, the input
    channel of that locator is open; the [CloseInputChannel] that follows
    returns true and leaves it not open. *)
Theorem open_close_round_trip (os : OS) (locator : Locator_t) (w w1 : World) :
  UDPv4Transport.OpenInputChannel os locator w = (Returned true, w1) ->
  UDPv4Transport.IsInputChannelOpen (self w1) locator = true /\
  exists w2 : World,
    UDPv4Transport.CloseInputChannel locator w1 = (Returned true, w2) /\
    UDPv4Transport.IsInputChannelOpen (self w2) locator = false.
Proof.
  intros Hopen. apply OpenInputChannel_true_opens in Hopen. split; [exact Hopen |].
  apply IsInputChannelOpen_true in Hopen as [Hkind [s Hs]].
  eexists. split; [apply (CloseInputChannel_open _ _ s Hkind Hs) |].
  apply IsInputChannelOpen_erased.
Qed.

Lemma open_close_round_trip_witness :
  let L := locator_of LOCATOR_KIND_UDPv4 7400 (239, 255, 0, 1) in
  UDPv4Transport.IsInputChannelOpen (self (world_with_input L)) L = true /\
  exists w2 : World,
    UDPv4Transport.CloseInputChannel L (world_with_input L) = (Returned true, w2) /\
    UDPv4Transport.IsInputChannelOpen (self w2) L = false.
Proof.
  intros L.
  apply (open_close_round_trip os_accept_all L (fresh_world false []) (world_with_input L)).
  vm_compute. reflexivity.
Defined.

(** ** Closing twice *)

Lemma IsOutputChannelOpen_true (t : UDPv4Transport) (locator : Locator_t) :
  UDPv4Transport.IsOutputChannelOpen t locator = true <->
  kind locator = LOCATOR_KIND_UDPv4 /\
  if mGranularMode t then is_Some (mGranularOutputSockets t !! locator)
  else is_Some (mOutputSockets t !! port locator).
Proof.
  unfold UDPv4Transport.IsOutputChannelOpen, UDPv4Transport.IsLocatorSupported.
  destruct (bool_decide (kind locator = LOCATOR_KIND_UDPv4)) eqn:Hk; cbn [negb].
  - apply bool_decide_eq_true in Hk.
    destruct (mGranularMode t); rewrite bool_decide_eq_true; tauto.
  - apply bool_decide_eq_false in Hk. split; [discriminate | tauto].
Qed.

(** Cancelling and closing every socket of a shared entry only extends the
    log. *)
Lemma close_all_sockets (sockets : list socket) (w : World) :
  for_each sockets (fun socket =>
    UDPv4Transport.sys_ok (sys_cancel socket) ;;;
    UDPv4Transport.sys_ok (sys_close socket)) w
  = (Returned tt,
     mkWorld (self w)
       (oslog w ++ flat_map (fun s => [(sys_cancel s, true); (sys_close s, true)]) sockets)).
Proof.
  revert w. induction sockets as [| s sockets IH]; intros w; cbn [for_each flat_map].
  - rewrite app_nil_r. now destruct w.
  - unfold bind at 1. unfold bind at 1. cbn. rewrite IH. cbn.
    now rewrite <- !app_assoc.
Qed.

Lemma CloseOutputChannel_closed (locator : Locator_t) (w : World) :
  UDPv4Transport.IsOutputChannelOpen (self w) locator = false ->
  UDPv4Transport.CloseOutputChannel locator w = (Returned false, w).
Proof.
  intros Hclosed. unfold UDPv4Transport.CloseOutputChannel.
  now rewrite bind_gets, Hclosed.
Qed.

Lemma CloseOutputChannel_open (locator : Locator_t) (w : World) :
  UDPv4Transport.IsOutputChannelOpen (self w) locator = true ->
  exists w1 : World,
    UDPv4Transport.CloseOutputChannel locator w = (Returned true, w1) /\
    UDPv4Transport.IsOutputChannelOpen (self w1) locator = false.
Proof.
  intros Hopen. unfold UDPv4Transport.CloseOutputChannel.
  rewrite bind_gets, Hopen. cbn [negb].
  apply IsOutputChannelOpen_true in Hopen as [Hkind Hentry].
  unfold UDPv4Transport.IsOutputChannelOpen, UDPv4Transport.IsLocatorSupported.
  rewrite (bool_decide_eq_true_2 _ Hkind). cbn [negb].
  destruct (mGranularMode (self w)) eqn:Hmode.
  - destruct Hentry as [s Hs]. rewrite (map_at_Some _ _ _ Hs).
    eexists. split; [reflexivity |]. cbn. rewrite Hmode.
    rewrite lookup_delete_eq. apply bool_decide_eq_false_2. intros [? ?]; discriminate.
  - destruct Hentry as [l Hl]. rewrite (map_at_Some _ _ _ Hl).
    unfold bind at 1. rewrite bind_ret. unfold bind at 1. rewrite close_all_sockets.
    eexists. split; [reflexivity |]. cbn. rewrite Hmode.
    rewrite lookup_delete_eq. apply bool_decide_eq_false_2. intros [? ?]; discriminate.
Qed.

(** [Abort] and the destructor run the same clean-up. *)
Lemma Abort_closes (os : OS) (r : ReceiverResource.ReceiverResource) (w : World) :
  exists w1 : World,
    ReceiverResource.Abort (H := UDPv4_TransportInterface os) r w = (Returned tt, w1) /\
    forall locator, ReceiverResource.Cleanup r = Some locator ->
                    UDPv4Transport.IsInputChannelOpen (self w1) locator = false.
Proof.
  unfold ReceiverResource.Abort. destruct (ReceiverResource.Cleanup r) as [L |].
  - cbn [CloseInputChannel UDPv4_TransportInterface].
    destruct (UDPv4Transport.IsInputChannelOpen (self w) L) eqn:Hopen.
    + apply IsInputChannelOpen_true in Hopen as [Hkind [s Hs]].
      rewrite (bind_Returned _ _ _ _ _ (CloseInputChannel_open _ _ s Hkind Hs)).
      eexists. split; [reflexivity |].
      intros ? [= <-]. apply IsInputChannelOpen_erased.
    + rewrite (bind_Returned _ _ _ _ _ (CloseInputChannel_closed _ _ Hopen)).
      eexists. split; [reflexivity |]. now intros ? [= <-].
  - exists w. split; [reflexivity | discriminate].
Qed.

(** C7: closing an open channel twice, input or output, returns true and
    then false, and the second call changes nothing (neither the pools nor
    the log); and the destructor of a receiver resource run after [Abort]
    changes nothing either. *)
Theorem close_twice (os : OS) (locator : Locator_t)
    (r : ReceiverResource.ReceiverResource) (w : World) :
  (UDPv4Transport.IsInputChannelOpen (self w) locator = true ->
   exists w1 : World,
     UDPv4Transport.CloseInputChannel locator w = (Returned true, w1) /\
     UDPv4Transport.CloseInputChannel locator w1 = (Returned false, w1)) /\
  (UDPv4Transport.IsOutputChannelOpen (self w) locator = true ->
   exists w1 : World,
     UDPv4Transport.CloseOutputChannel locator w = (Returned true, w1) /\
     UDPv4Transport.CloseOutputChannel locator w1 = (Returned false, w1)) /\
  (exists w1 : World,
     ReceiverResource.Abort (H := UDPv4_TransportInterface os) r w = (Returned tt, w1) /\
     ReceiverResource.destroy (H := UDPv4_TransportInterface os) r w1 = (Returned tt, w1)).
Proof.
  split; [| split].
  - intros Hopen. apply IsInputChannelOpen_true in Hopen as [Hkind [s Hs]].
    eexists. split; [apply (CloseInputChannel_open _ _ s Hkind Hs) |].
    apply CloseInputChannel_closed, IsInputChannelOpen_erased.
  - intros Hopen. destruct (CloseOutputChannel_open _ _ Hopen) as (w1 & E & Hclosed).
    exists w1. split; [exact E |]. now apply CloseOutputChannel_closed.
  - destruct (Abort_closes os r w) as (w1 & E & Hclosed).
    exists w1. split; [exact E |].
    unfold ReceiverResource.destroy. destruct (ReceiverResource.Cleanup r) as [L |];
      [| reflexivity].
    cbn [CloseInputChannel UDPv4_TransportInterface].
    now rewrite (bind_Returned _ _ _ _ _ (CloseInputChannel_closed _ _ (Hclosed L eq_refl))).
Qed.

Lemma close_twice_witness :
  let L := locator_of LOCATOR_KIND_UDPv4 7400 (0, 0, 0, 0) in
  let r := ReceiverResource.mkReceiverResource true (Some L) (Some L) (Some L) in
  let w := world_with_both L in
  (exists w1 : World,
     UDPv4Transport.CloseInputChannel L w = (Returned true, w1) /\
     UDPv4Transport.CloseInputChannel L w1 = (Returned false, w1)) /\
  (exists w1 : World,
     UDPv4Transport.CloseOutputChannel L w = (Returned true, w1) /\
     UDPv4Transport.CloseOutputChannel L w1 = (Returned false, w1)) /\
  (exists w1 : World,
     ReceiverResource.Abort (H := UDPv4_TransportInterface os_accept_all) r w
     = (Returned tt, w1) /\
     ReceiverResource.destroy (H := UDPv4_TransportInterface os_accept_all) r w1
     = (Returned tt, w1)).
Proof.
  intros L r w.
  destruct (close_twice os_accept_all L r w) as (Hin & Hout & Hres).
  split; [| split].
  - apply Hin. vm_compute. reflexivity.
  - apply Hout. vm_compute. reflexivity.
  - exact Hres.
Defined.

(** ** The silent multicast join *)

(** Step over one accepted call at the head of a computation. *)
Ltac step_accepted Hacc :=
  match goal with
  | |- context [bind (UDPv4Transport.sys ?os ?c) ?k ?w] =>
      let Hin := fresh "Hin" in
      assert (Hin : os_accepts os (oslog w) c = true)
        by (apply Hacc; unfold input_socket_calls, output_socket_calls; set_solver);
      rewrite (bind_Returned _ k w _ tt (sys_accepted os c w Hin));
      clear Hin
  end.

Lemma OpenAndBindInputSocket_accepted (os : OS) (p : Z) (w : World) :
  accepts_always os (input_socket_calls (self w) p) ->
  UDPv4Transport.OpenAndBindInputSocket os p w
  = (Returned (mkSocket address_v4_any (to_uint16 p)),
     mkWorld (self w) (oslog w ++ logged_accepted (input_socket_calls (self w) p))).
Proof.
  intros Hacc. unfold UDPv4Transport.OpenAndBindInputSocket.
  step_accepted Hacc. rewrite bind_gets.
  step_accepted Hacc. step_accepted Hacc. step_accepted Hacc. step_accepted Hacc.
  unfold ret, log_call. cbn. now rewrite <- !app_assoc.
Qed.

Lemma OpenAndBindInputSockets_accepted (os : OS) (p : Z) (w : World) :
  accepts_always os (input_socket_calls (self w) p) ->
  UDPv4Transport.OpenAndBindInputSockets os p w
  = (Returned true,
     set_mInputSockets (map_emplace p (mkSocket address_v4_any (to_uint16 p)))
       (mkWorld (self w) (oslog w ++ logged_accepted (input_socket_calls (self w) p)))).
Proof.
  intros Hacc. unfold UDPv4Transport.OpenAndBindInputSockets.
  apply try_catch_Returned.
  now rewrite (bind_Returned _ _ _ _ _ (OpenAndBindInputSocket_accepted _ _ _ Hacc)).
Qed.

(** Opening a multicast locator whose port is not open yet, on a system
    that accepts the socket set-up: the socket is bound and put in the pool,
    then the group is joined on it.  The call returns true if the join is
    accepted; if it is rejected, [system_error] leaves [OpenInputChannel]
    with the new entry still in the pool. *)
Lemma OpenInputChannel_multicast_first (os : OS) (locator : Locator_t) (w : World) :
  UDPv4Transport.IsLocatorSupported locator = true ->
  IsMulticastAddress locator = true ->
  UDPv4Transport.IsInputChannelOpen (self w) locator = false ->
  accepts_always os (input_socket_calls (self w) (port locator)) ->
  let s := mkSocket address_v4_any (to_uint16 (port locator)) in
  let w1 := set_mInputSockets (insert (port locator) s)
              (mkWorld (self w)
                 (oslog w ++ logged_accepted (input_socket_calls (self w) (port locator)))) in
  let join := sys_join_group s (to_IP4 locator) in
  UDPv4Transport.IsInputChannelOpen (self w1) locator = true /\
  UDPv4Transport.OpenInputChannel os locator w
  = if os_accepts os (oslog w1) join
    then (Returned true, log_call join true w1)
    else (Raised system_error, log_call join false w1).
Proof.
  intros Hsup Hmc Hclosed Hacc s w1 join.
  pose proof (IsInputChannelOpen_false _ _ Hsup Hclosed) as Hnone.
  assert (Hopen1 : UDPv4Transport.IsInputChannelOpen (self w1) locator = true).
  { apply IsInputChannelOpen_true. split; [now apply bool_decide_eq_true in Hsup |].
    subst w1. cbn. rewrite lookup_insert_eq. eauto. }
  split; [exact Hopen1 |].
  unfold UDPv4Transport.OpenInputChannel. rewrite Hsup. cbn [negb].
  rewrite bind_gets, Hclosed. cbn [negb].
  rewrite (bind_Returned _ _ _ _ _ (OpenAndBindInputSockets_accepted _ _ _ Hacc)).
  replace (set_mInputSockets _ _) with w1
    by (subst w1; unfold set_mInputSockets, update_self, with_mInputSockets, map_emplace;
        cbn; now rewrite Hnone).
  rewrite bind_gets, Hmc, Hopen1. cbn [andb].
  assert (Hs : mInputSockets (self w1) !! port locator = Some s)
    by (subst w1; cbn; apply lookup_insert_eq).
  rewrite (map_at_Some _ _ _ Hs).
  unfold bind at 1. rewrite bind_ret. fold join.
  unfold UDPv4Transport.sys. destruct (os_accepts os (oslog w1) join); reflexivity.
Qed.

(** C3, on the code: when the bind succeeds and the join is rejected,
    [OpenInputChannel] does not return true.  The rejected [set_option]
    throws, nothing catches it, and [system_error] escapes while the socket
    stays in the input pool. *)
Theorem OpenInputChannel_join_failure_escapes (os : OS) (locator : Locator_t) (w : World) :
  UDPv4Transport.IsLocatorSupported locator = true ->
  IsMulticastAddress locator = true ->
  UDPv4Transport.IsInputChannelOpen (self w) locator = false ->
  accepts_always os (input_socket_calls (self w) (port locator)) ->
  (forall (log : os_log) (s : socket),
     os_accepts os log (sys_join_group s (to_IP4 locator)) = false) ->
  exists w1 : World,
    UDPv4Transport.OpenInputChannel os locator w = (Raised system_error, w1) /\
    UDPv4Transport.IsInputChannelOpen (self w1) locator = true.
Proof.
  intros Hsup Hmc Hclosed Hacc Hrej.
  destruct (OpenInputChannel_multicast_first os locator w Hsup Hmc Hclosed Hacc)
    as [Hopen E].
  rewrite Hrej in E. eexists. split; [exact E | exact Hopen].
Qed.

Lemma OpenInputChannel_join_failure_escapes_witness :
  let L := locator_of LOCATOR_KIND_UDPv4 7400 (239, 255, 0, 1) in
  exists w1 : World,
    UDPv4Transport.OpenInputChannel os_reject_join L (fresh_world false [])
    = (Raised system_error, w1) /\
    UDPv4Transport.IsInputChannelOpen (self w1) L = true.
Proof.
  intros L.
  apply (OpenInputChannel_join_failure_escapes os_reject_join L (fresh_world false [])).
  - reflexivity.
  - reflexivity.
  - reflexivity.
  - intros log c Hc. unfold input_socket_calls in Hc.
    repeat (apply elem_of_cons in Hc as [-> | Hc]; [reflexivity |]).
    now apply elem_of_nil in Hc.
  - intros log s. reflexivity.
Defined.

(** Opening a multicast locator whose port is already open: the group join
    is issued on the socket the pool holds, and nothing else happens.  The
    call returns false if the join is accepted. *)
Lemma OpenInputChannel_multicast_again (os : OS) (locator : Locator_t) (w : World)
    (s : socket) :
  UDPv4Transport.IsInputChannelOpen (self w) locator = true ->
  IsMulticastAddress locator = true ->
  mInputSockets (self w) !! port locator = Some s ->
  let join := sys_join_group s (to_IP4 locator) in
  UDPv4Transport.OpenInputChannel os locator w
  = if os_accepts os (oslog w) join
    then (Returned false, log_call join true w)
    else (Raised system_error, log_call join false w).
Proof.
  intros Hopen Hmc Hs join.
  assert (Hsup : UDPv4Transport.IsLocatorSupported locator = true).
  { apply IsInputChannelOpen_true in Hopen as [Hk _]. now apply bool_decide_eq_true. }
  unfold UDPv4Transport.OpenInputChannel. rewrite Hsup. cbn [negb].
  rewrite bind_gets, Hopen. cbn [negb].
  rewrite bind_ret, bind_gets, Hmc, Hopen. cbn [andb].
  rewrite (map_at_Some _ _ _ Hs).
  unfold bind at 1. rewrite bind_ret. fold join.
  unfold UDPv4Transport.sys. destruct (os_accepts os (oslog w) join); reflexivity.
Qed.

(** C10, on the code: on a multicast locator whose input channel is already
    open the join is always issued on the existing socket; when the system
    rejects it the call does not return false, [system_error] escapes. *)
Theorem OpenInputChannel_again_join_rejected (os : OS) (locator : Locator_t) (w : World)
    (s : socket) :
  UDPv4Transport.IsInputChannelOpen (self w) locator = true ->
  IsMulticastAddress locator = true ->
  mInputSockets (self w) !! port locator = Some s ->
  os_accepts os (oslog w) (sys_join_group s (to_IP4 locator)) = false ->
  UDPv4Transport.OpenInputChannel os locator w
  = (Raised system_error, log_call (sys_join_group s (to_IP4 locator)) false w).
Proof.
  intros Hopen Hmc Hs Hrej.
  rewrite (OpenInputChannel_multicast_again os locator w s Hopen Hmc Hs).
  now rewrite Hrej.
Qed.

Lemma OpenInputChannel_again_join_rejected_witness :
  let L := locator_of LOCATOR_KIND_UDPv4 7400 (239, 255, 0, 1) in
  let os := os_reject_duplicate_join in
  let s := mkSocket address_v4_any 7400 in
  let w1 := snd (UDPv4Transport.OpenInputChannel os L (fresh_world false [])) in
  UDPv4Transport.OpenInputChannel os L (fresh_world false []) = (Returned true, w1) /\
  UDPv4Transport.OpenInputChannel os L w1
  = (Raised system_error, log_call (sys_join_group s (to_IP4 L)) false w1).
Proof.
  intros L os s w1. split.
  - vm_compute. reflexivity.
  - apply (OpenInputChannel_again_join_rejected os L w1 s).
    + vm_compute. reflexivity.
    + reflexivity.
    + vm_compute. reflexivity.
    + vm_compute. reflexivity.
Defined.

(** ** Opening output channels: failure and roll-back *)

Lemma rejected_not_accepted (evs : os_log) : rejected evs -> ~ accepted evs.
Proof.
  unfold rejected, accepted. rewrite Exists_exists, Forall_forall.
  intros (e & Hin & He) Hall. specialize (Hall e Hin). congruence.
Qed.

Lemma with_mOutputSockets_id (p : Z) (t : UDPv4Transport) :
  with_mOutputSockets (partial_alter (fun cur => cur) p) t = t.
Proof.
  unfold with_mOutputSockets. rewrite partial_alter_id by reflexivity. now destruct t.
Qed.

Lemma output_step_syscalls (p : Z) {A} (c : M World A) (w : World) (v : A) :
  syscalls_at c w v -> output_step p (fun a => a = v) c w.
Proof.
  intros (evs & Hself & Hlog & Hres). exists evs, (fun cur => cur).
  rewrite with_mOutputSockets_id. repeat split; auto.
Qed.

Lemma output_step_weaken (p : Z) {A} (Q Q' : A -> Prop) (c : M World A) (w : World) :
  (forall a, Q a -> Q' a) -> output_step p Q c w -> output_step p Q' c w.
Proof.
  intros HQ (evs & f & Hself & Hlog & Hres). exists evs, f. repeat split; auto.
  destruct (fst (c w)); [| exact Hres ..]. destruct Hres. auto.
Qed.

Lemma output_step_modify (p : Z) (f : option (list socket) -> option (list socket))
    (g : gmap Z (list socket) -> gmap Z (list socket)) (w : World) :
  (forall m, g m = partial_alter f p m) ->
  output_step p (fun _ => True) (modify (set_mOutputSockets g)) w.
Proof.
  intros Hg. exists [], f. cbn. rewrite app_nil_r.
  unfold with_mOutputSockets. rewrite Hg. repeat split. constructor.
Qed.

Lemma output_step_bind (p : Z) {A B} (Q1 : A -> Prop) (Q2 : B -> Prop)
    (c : M World A) (k : A -> M World B) (w : World) :
  output_step p Q1 c w ->
  (forall a w1, Q1 a -> output_step p Q2 (k a) w1) ->
  output_step p Q2 (bind c k) w.
Proof.
  intros (evs1 & f1 & Hself1 & Hlog1 & Hres1) Hk. unfold output_step, bind.
  destruct (c w) as [[a | e |] w1]; cbn in *.
  - destruct Hres1 as [Ha Hacc1].
    destruct (Hk a w1 Ha) as (evs2 & f2 & Hself2 & Hlog2 & Hres2).
    exists (evs1 ++ evs2), (f2 ∘ f1).
    rewrite Hself2, Hlog2, Hlog1, Hself1, app_assoc.
    unfold with_mOutputSockets; cbn. rewrite partial_alter_partial_alter_eq.
    repeat split.
    destruct (fst (k a w1)); rewrite ?accepted_app; tauto.
  - exists evs1, f1. tauto.
  - contradiction.
Qed.

Lemma output_step_ret (p : Z) {A} (a : A) (w : World) :
  output_step p (fun a' => a' = a) (ret a) w.
Proof. apply output_step_syscalls, syscalls_at_ret. Qed.

Lemma output_step_for_each (p : Z) {A} (body : A -> M World unit) (l : list A) :
  (forall x w, output_step p (fun _ => True) (body x) w) ->
  forall w, output_step p (fun _ => True) (for_each l body) w.
Proof.
  intros Hbody. induction l as [| x l IH]; intros w; cbn [for_each].
  - eapply output_step_weaken; [| apply output_step_ret]. auto.
  - eapply output_step_bind; [apply Hbody | intros _ w1 _; apply IH].
Qed.

Lemma map_subscript_partial_alter {V} (p : Z) (m : gmap Z (list V)) :
  map_subscript p m
  = partial_alter (fun cur => match cur with Some l => Some l | None => Some [] end) p m.
Proof.
  unfold map_subscript. destruct (m !! p) as [l |] eqn:E.
  - symmetry. apply partial_alter_id. now rewrite E.
  - unfold insert, map_insert. apply partial_alter_ext. intros x <-. now rewrite E.
Qed.

Lemma push_back_output_step (os : OS) (ip : address_v4) (p : Z) (w : World) :
  output_step p (fun _ => True) (UDPv4Transport.push_back_output os ip p) w.
Proof.
  unfold UDPv4Transport.push_back_output.
  eapply output_step_bind.
  - eapply output_step_modify. apply map_subscript_partial_alter.
  - intros _ w1 _. eapply output_step_bind.
    + eapply output_step_syscalls, OpenAndBindUnicastOutputSocket_syscalls.
    + intros s w2 _. eapply output_step_modify. intros m. reflexivity.
Qed.

(** [OpenAndBindOutputSockets] never throws.  It returns true when every
    call was accepted; after a rejected call it returns false and the entry
    of the port is erased, whatever had been pushed into it. *)
Lemma OpenAndBindOutputSockets_spec (os : OS) (p : Z) (w : World) :
  exists (evs : os_log) (b : bool) (w' : World),
    UDPv4Transport.OpenAndBindOutputSockets os p w = (Returned b, w') /\
    oslog w' = oslog w ++ evs /\
    if b then accepted evs
    else ~ accepted evs /\ self w' = with_mOutputSockets (delete p) (self w).
Proof.
  unfold UDPv4Transport.OpenAndBindOutputSockets.
  match goal with
  | |- context [try_catch _ ?body _ w] =>
      assert (Hstep : output_step p (fun b => b = true) body w)
  end.
  { eapply output_step_bind;
      [eapply output_step_syscalls, syscalls_at_gets |].
    intros wl w1 _. eapply output_step_bind;
      [| intros _ w2 _; apply output_step_ret].
    destruct wl as [| ip0 wl]; [apply push_back_output_step |].
    apply output_step_for_each. intros infoIP w2.
    eapply output_step_bind; [eapply output_step_syscalls, syscalls_at_gets |].
    intros t w3 _. destruct (UDPv4Transport.IsInterfaceAllowed t (name infoIP)).
    - apply push_back_output_step.
    - eapply output_step_weaken; [| apply output_step_ret]. auto. }
  destruct Hstep as (evs & f & Hself & Hlog & Hres).
  unfold try_catch.
  match goal with
  | |- context [match ?body w with _ => _ end] => destruct (body w) as [[b | e |] w1]
  end; cbn in Hself, Hlog, Hres.
  - destruct Hres as [-> Hacc]. exists evs, true, w1. auto.
  - destruct Hres as [-> Hrej]. exists evs, false. eexists. split; [reflexivity |].
    cbn. split; [exact Hlog |]. split; [exact Hrej |].
    rewrite Hself. unfold with_mOutputSockets; cbn.
    now rewrite delete_partial_alter_eq.
  - contradiction.
Qed.

Lemma OpenAndBindGranularOutputSocket_spec (os : OS) (locator : Locator_t) (w : World) :
  exists (evs : os_log) (b : bool) (w' : World),
    UDPv4Transport.OpenAndBindGranularOutputSocket os locator w = (Returned b, w') /\
    oslog w' = oslog w ++ evs /\
    if b then accepted evs
    else self w' = self w \/
         (~ accepted evs /\
          self w' = with_mGranularOutputSockets (delete locator) (self w)).
Proof.
  unfold UDPv4Transport.OpenAndBindGranularOutputSocket. rewrite bind_gets.
  destruct (UDPv4Transport.IsInterfaceAllowed (self w) (to_IP4 locator)); cbn [negb].
  - destruct (OpenAndBindUnicastOutputSocket_syscalls os (to_IP4 locator) (port locator) w)
      as (evs & Hself & Hlog & Hres).
    destruct (UDPv4Transport.OpenAndBindUnicastOutputSocket os (to_IP4 locator)
                (port locator) w) as [[s | e |] w1] eqn:E; cbn in Hself, Hlog, Hres.
    + destruct Hres as [-> Hacc]. exists evs, true. eexists. split; [| split].
      * apply try_catch_Returned. now rewrite (bind_Returned _ _ _ _ _ E).
      * exact Hlog.
      * exact Hacc.
    + destruct Hres as [-> Hrej]. exists evs, false. eexists. split; [| split].
      * rewrite (try_catch_Raised _ _ _ w w1 system_error);
          [reflexivity | now rewrite (bind_Raised _ _ _ _ _ E) | reflexivity].
      * exact Hlog.
      * right. split; [exact Hrej |]. cbn. now rewrite Hself.
    + contradiction.
  - exists [], false, w. rewrite app_nil_r. auto.
Qed.

(** Every way [OpenOutputChannel] can end: it returns; when it returns
    true every socket call was accepted, and when it returns false the
    transport is exactly as before the call. *)
Lemma OpenOutputChannel_spec (os : OS) (locator : Locator_t) (w : World) :
  exists (evs : os_log) (b : bool) (w' : World),
    UDPv4Transport.OpenOutputChannel os locator w = (Returned b, w') /\
    oslog w' = oslog w ++ evs /\
    if b then accepted evs else self w' = self w.
Proof.
  unfold UDPv4Transport.OpenOutputChannel. rewrite bind_gets.
  destruct (UDPv4Transport.IsOutputChannelOpen (self w) locator) eqn:Hopen; cbn [orb].
  { exists [], false, w. rewrite app_nil_r. auto. }
  destruct (UDPv4Transport.IsLocatorSupported locator) eqn:Hsup; cbn [negb].
  2: { exists [], false, w. rewrite app_nil_r. auto. }
  unfold UDPv4Transport.IsOutputChannelOpen in Hopen. rewrite Hsup in Hopen.
  cbn [negb] in Hopen.
  destruct (mGranularMode (self w)) eqn:Hmode.
  - apply bool_decide_eq_false in Hopen. rewrite <- eq_None_not_Some in Hopen.
    destruct (OpenAndBindGranularOutputSocket_spec os locator w)
      as (evs & [] & w' & E & Hlog & Hres); exists evs; eexists; exists w';
      (split; [exact E |]); (split; [exact Hlog |]); [exact Hres |].
    destruct Hres as [Hsame | [_ Hself]]; [exact Hsame |].
    rewrite Hself. unfold with_mGranularOutputSockets.
    rewrite (delete_id _ _ Hopen). now destruct (self w).
  - apply bool_decide_eq_false in Hopen. rewrite <- eq_None_not_Some in Hopen.
    destruct (OpenAndBindOutputSockets_spec os (port locator) w)
      as (evs & [] & w' & E & Hlog & Hres); exists evs; eexists; exists w';
      (split; [exact E |]); (split; [exact Hlog |]); [exact Hres |].
    destruct Hres as [_ Hself].
    rewrite Hself. unfold with_mOutputSockets.
    rewrite (delete_id _ _ Hopen). now destruct (self w).
Qed.

(** C4: if a socket call is rejected while an output channel is being
    opened, in either topology, [OpenOutputChannel] returns false and the
    transport (all three pools) is exactly as it was before the call. *)
Theorem OpenOutputChannel_bind_failure_rolls_back (os : OS) (locator : Locator_t)
    (w : World) (evs : os_log) :
  oslog (snd (UDPv4Transport.OpenOutputChannel os locator w)) = oslog w ++ evs ->
  rejected evs ->
  fst (UDPv4Transport.OpenOutputChannel os locator w) = Returned false /\
  self (snd (UDPv4Transport.OpenOutputChannel os locator w)) = self w.
Proof.
  intros Hlog Hrej.
  destruct (OpenOutputChannel_spec os locator w) as (evs' & b & w' & E & Hlog' & Hres).
  rewrite E in *. cbn in *.
  rewrite Hlog' in Hlog. apply app_inv_head in Hlog. subst evs'.
  destruct b; [| auto].
  now apply rejected_not_accepted in Hrej.
Qed.

Lemma OpenOutputChannel_bind_failure_rolls_back_witness :
  let L := locator_of LOCATOR_KIND_UDPv4 7400 (192, 168, 1, 10) in
  let os := os_reject_bind (192, 168, 1, 10) in
  let shared := fresh_world false [(127, 0, 0, 1); (192, 168, 1, 10)] in
  let granular := fresh_world true [] in
  (fst (UDPv4Transport.OpenOutputChannel os L shared) = Returned false /\
   self (snd (UDPv4Transport.OpenOutputChannel os L shared)) = self shared) /\
  (fst (UDPv4Transport.OpenOutputChannel os L granular) = Returned false /\
   self (snd (UDPv4Transport.OpenOutputChannel os L granular)) = self granular).
Proof.
  intros L os shared granular. split.
  - apply (OpenOutputChannel_bind_failure_rolls_back os L shared
             [(sys_open, true); (sys_send_buffer_size 65536, true);
              (sys_bind ((127, 0, 0, 1), 7400), true);
              (sys_open, true); (sys_send_buffer_size 65536, true);
              (sys_bind ((192, 168, 1, 10), 7400), false)]).
    + vm_compute. reflexivity.
    + repeat (first [apply Exists_cons_hd; reflexivity | apply Exists_cons_tl]).
  - apply (OpenOutputChannel_bind_failure_rolls_back os L granular
             [(sys_open, true); (sys_send_buffer_size 65536, true);
              (sys_bind ((192, 168, 1, 10), 7400), false)]).
    + vm_compute. reflexivity.
    + repeat (first [apply Exists_cons_hd; reflexivity | apply Exists_cons_tl]).
Defined.

(** ** Shared output channels: how many sockets *)

Lemma OpenAndBindUnicastOutputSocket_accepted (os : OS) (ip : address_v4) (p : Z)
    (w : World) :
  accepts_always os (output_socket_calls (self w) ip p) ->
  UDPv4Transport.OpenAndBindUnicastOutputSocket os ip p w
  = (Returned (output_socket p ip),
     mkWorld (self w) (oslog w ++ logged_accepted (output_socket_calls (self w) ip p))).
Proof.
  intros Hacc. unfold UDPv4Transport.OpenAndBindUnicastOutputSocket.
  step_accepted Hacc. rewrite bind_gets.
  step_accepted Hacc. step_accepted Hacc.
  unfold ret, log_call. cbn. now rewrite <- !app_assoc.
Qed.

Lemma push_back_entry (p : Z) (s : socket) (m : gmap Z (list socket)) :
  alter (push_back s) p (map_subscript p m) = partial_alter (pushed [s]) p m.
Proof.
  rewrite map_subscript_partial_alter. unfold alter, map_alter.
  rewrite partial_alter_partial_alter_eq. apply partial_alter_ext.
  intros cur _. now destruct cur.
Qed.

Lemma pushed_cons (s : socket) (rest : list socket) (cur : option (list socket)) :
  pushed rest (pushed [s] cur) = pushed (s :: rest) cur.
Proof.
  destruct rest as [| s' rest]; [reflexivity |].
  cbn. now rewrite <- app_assoc.
Qed.

Lemma push_back_output_accepted (os : OS) (ip : address_v4) (p : Z) (w : World) :
  accepts_always os (output_socket_calls (self w) ip p) ->
  exists w' : World,
    UDPv4Transport.push_back_output os ip p w = (Returned tt, w') /\
    self w' = with_mOutputSockets (partial_alter (pushed [output_socket p ip]) p) (self w).
Proof.
  intros Hacc. unfold UDPv4Transport.push_back_output. rewrite bind_modify.
  rewrite (bind_Returned _ _ _ _ _
             (OpenAndBindUnicastOutputSocket_accepted os ip p
                (set_mOutputSockets (map_subscript p) w) Hacc)).
  eexists. split; [reflexivity |].
  cbn. unfold with_mOutputSockets; cbn. now rewrite push_back_entry.
Qed.

Lemma IsInterfaceAllowed_whitelist (t t' : UDPv4Transport) (ip : address_v4) :
  mInterfaceWhiteList t' = mInterfaceWhiteList t ->
  UDPv4Transport.IsInterfaceAllowed t' ip = UDPv4Transport.IsInterfaceAllowed t ip.
Proof. intros E. unfold UDPv4Transport.IsInterfaceAllowed. now rewrite E. Qed.

(** The loop over the host interfaces, when every bind it attempts is
    accepted: each allowed interface adds its socket to the entry. *)
Lemma bind_allowed_interfaces (os : OS) (p : Z) (t : UDPv4Transport)
    (l : list info_IP) :
  (forall ip,
     ip ∈ filter (fun ip => UDPv4Transport.IsInterfaceAllowed t ip = true) (name <$> l) ->
     accepts_always os (output_socket_calls t ip p)) ->
  forall w : World,
    mInterfaceWhiteList (self w) = mInterfaceWhiteList t ->
    mSendBufferSize (self w) = mSendBufferSize t ->
    exists w' : World,
      for_each l (fun infoIP =>
        let ip := name infoIP in
        t <~ gets self ;;
        if UDPv4Transport.IsInterfaceAllowed t ip
        then UDPv4Transport.push_back_output os ip p else ret tt) w
      = (Returned tt, w') /\
      self w'
      = with_mOutputSockets
          (partial_alter
             (pushed (output_socket p <$>
                      filter (fun ip => UDPv4Transport.IsInterfaceAllowed t ip = true)
                             (name <$> l))) p)
          (self w).
Proof.
  induction l as [| infoIP l IH]; intros Hacc w Hwl Hsize; cbn [for_each].
  - exists w. split; [reflexivity |]. cbn. symmetry. apply with_mOutputSockets_id.
  - cbn [fmap list_fmap] in *. cbv zeta.
    unfold bind at 1. rewrite bind_gets.
    rewrite (IsInterfaceAllowed_whitelist t (self w) _ Hwl).
    destruct (UDPv4Transport.IsInterfaceAllowed t (name infoIP)) eqn:Hallowed.
    + rewrite filter_cons_True in * by exact Hallowed.
      destruct (push_back_output_accepted os (name infoIP) p w) as (w1 & E1 & Hself1).
      { unfold output_socket_calls. rewrite Hsize. apply Hacc. left. }
      rewrite E1.
      destruct (IH (fun ip Hin => Hacc ip (list_elem_of_further _ _ _ Hin)) w1)
        as (w' & E & Hself); [now rewrite Hself1 .. |].
      exists w'. split; [exact E |].
      rewrite Hself, Hself1. unfold with_mOutputSockets; cbn.
      rewrite partial_alter_partial_alter_eq.
      f_equal. apply partial_alter_ext. intros cur _. apply pushed_cons.
    + rewrite filter_cons_False in * by (rewrite Hallowed; discriminate).
      cbn [ret]. apply IH; assumption.
Qed.

(** With a whitelist, every host address that is in it (and no other,
    the wildcard apart) passes [IsInterfaceAllowed]. *)
Lemma IsInterfaceAllowed_true (t : UDPv4Transport) (ip : address_v4) :
  mInterfaceWhiteList t <> [] ->
  UDPv4Transport.IsInterfaceAllowed t ip = true <->
  ip = address_v4_any \/ ip ∈ mInterfaceWhiteList t.
Proof.
  intros Hwl. unfold UDPv4Transport.IsInterfaceAllowed.
  destruct (mInterfaceWhiteList t) as [| ip0 wl]; [contradiction |].
  destruct (bool_decide (ip = address_v4_any)) eqn:Hany.
  - apply bool_decide_eq_true in Hany. tauto.
  - apply bool_decide_eq_false in Hany. rewrite bool_decide_eq_true. tauto.
Qed.

(** When the whitelist entries are distinct addresses of host interfaces
    that are themselves listed once, and no interface has the wildcard
    address, the allowed interfaces are as many as the whitelist entries. *)
Lemma allowed_interfaces_length (os : OS) (t : UDPv4Transport) :
  mInterfaceWhiteList t <> [] ->
  NoDup (mInterfaceWhiteList t) ->
  NoDup (name <$> UDPv4Transport.GetIP4s os) ->
  mInterfaceWhiteList t ⊆ name <$> UDPv4Transport.GetIP4s os ->
  address_v4_any ∉ name <$> UDPv4Transport.GetIP4s os ->
  length (allowed_interfaces os t) = length (mInterfaceWhiteList t).
Proof.
  intros Hwl Hnd_wl Hnd_host Hsub Hany. apply Permutation_length.
  apply NoDup_Permutation; [now apply NoDup_filter | exact Hnd_wl |].
  intros ip. unfold allowed_interfaces. rewrite list_elem_of_filter.
  rewrite (IsInterfaceAllowed_true _ _ Hwl). split.
  - intros [[-> | Hin] Hhost]; [contradiction | exact Hin].
  - intros Hin. split; [now right | now apply Hsub].
Qed.

Lemma shared_not_open (t : UDPv4Transport) (locator : Locator_t) :
  mGranularMode t = false ->
  UDPv4Transport.IsLocatorSupported locator = true ->
  UDPv4Transport.IsOutputChannelOpen t locator = false ->
  mOutputSockets t !! port locator = None.
Proof.
  unfold UDPv4Transport.IsOutputChannelOpen. intros -> -> Hclosed. cbn in Hclosed.
  apply bool_decide_eq_false in Hclosed. now rewrite <- eq_None_not_Some in Hclosed.
Qed.

(** C1, amended: in shared mode, opening an output channel whose binds are
    accepted returns true and leaves, for the port, exactly one socket bound
    to the wildcard address when the whitelist is empty, and otherwise one
    socket per host IPv4 interface that passes [IsInterfaceAllowed], in the
    order the host lists them.  These are as many as the whitelist entries
    when the entries are distinct addresses of host interfaces listed once,
    none of them the wildcard. *)
Theorem OpenOutputChannel_shared_sockets (os : OS) (locator : Locator_t) (w : World) :
  mGranularMode (self w) = false ->
  UDPv4Transport.IsLocatorSupported locator = true ->
  UDPv4Transport.IsOutputChannelOpen (self w) locator = false ->
  (mInterfaceWhiteList (self w) = [] ->
   accepts_always os (output_socket_calls (self w) address_v4_any (port locator)) ->
   exists w' : World,
     UDPv4Transport.OpenOutputChannel os locator w = (Returned true, w') /\
     mOutputSockets (self w') !! port locator
     = Some [output_socket (port locator) address_v4_any]) /\
  (mInterfaceWhiteList (self w) <> [] ->
   (forall ip, ip ∈ allowed_interfaces os (self w) ->
               accepts_always os (output_socket_calls (self w) ip (port locator))) ->
   exists w' : World,
     UDPv4Transport.OpenOutputChannel os locator w = (Returned true, w') /\
     shared_sockets (self w') (port locator)
     = output_socket (port locator) <$> allowed_interfaces os (self w) /\
     (NoDup (mInterfaceWhiteList (self w)) ->
      NoDup (name <$> UDPv4Transport.GetIP4s os) ->
      mInterfaceWhiteList (self w) ⊆ name <$> UDPv4Transport.GetIP4s os ->
      address_v4_any ∉ name <$> UDPv4Transport.GetIP4s os ->
      length (shared_sockets (self w') (port locator))
      = length (mInterfaceWhiteList (self w)))).
Proof.
  intros Hmode Hsup Hclosed.
  pose proof (shared_not_open _ _ Hmode Hsup Hclosed) as Hnone.
  assert (Hopen : forall b w',
            UDPv4Transport.OpenAndBindOutputSockets os (port locator) w = (Returned b, w') ->
            UDPv4Transport.OpenOutputChannel os locator w = (Returned b, w')).
  { intros b w' E. unfold UDPv4Transport.OpenOutputChannel.
    now rewrite bind_gets, Hclosed, Hsup, Hmode. }
  split.
  - intros Hwl Hacc.
    destruct (push_back_output_accepted os address_v4_any (port locator) w Hacc)
      as (w' & E & Hself).
    exists w'. split.
    + apply Hopen. unfold UDPv4Transport.OpenAndBindOutputSockets.
      apply try_catch_Returned. rewrite bind_gets, Hwl.
      now rewrite (bind_Returned _ _ _ _ _ E).
    + rewrite Hself. cbn. now rewrite lookup_partial_alter_eq, Hnone.
  - intros Hwl Hacc.
    destruct (bind_allowed_interfaces os (port locator) (self w)
                (UDPv4Transport.GetIP4s os) Hacc w eq_refl eq_refl) as (w' & E & Hself).
    exists w'. split; [| split].
    + apply Hopen. unfold UDPv4Transport.OpenAndBindOutputSockets.
      apply try_catch_Returned. rewrite bind_gets.
      destruct (mInterfaceWhiteList (self w)) as [| ip0 wl]; [contradiction |].
      now rewrite (bind_Returned _ _ _ _ _ E).
    + unfold shared_sockets. rewrite Hself. cbn.
      rewrite lookup_partial_alter_eq, Hnone. fold (allowed_interfaces os (self w)).
      now destruct (allowed_interfaces os (self w)).
    + intros Hnd_wl Hnd_host Hsub Hany.
      unfold shared_sockets. rewrite Hself. cbn.
      rewrite lookup_partial_alter_eq, Hnone. fold (allowed_interfaces os (self w)).
      rewrite <- (allowed_interfaces_length os (self w)) by assumption.
      destruct (allowed_interfaces os (self w)); [reflexivity |].
      cbn. now rewrite length_fmap.
Qed.

Lemma accept_all_accepts (calls : list os_call) : accepts_always os_accept_all calls.
Proof. intros log c _. reflexivity. Qed.

Lemma OpenOutputChannel_shared_sockets_witness :
  let L := locator_of LOCATOR_KIND_UDPv4 7400 (0, 0, 0, 0) in
  let wl := [(192, 168, 1, 10); (127, 0, 0, 1)] in
  (exists w' : World,
     UDPv4Transport.OpenOutputChannel os_accept_all L (fresh_world false [])
     = (Returned true, w') /\
     mOutputSockets (self w') !! 7400 = Some [mkSocket address_v4_any 7400]) /\
  (exists w' : World,
     UDPv4Transport.OpenOutputChannel os_accept_all L (fresh_world false wl)
     = (Returned true, w') /\
     shared_sockets (self w') 7400
     = [mkSocket (127, 0, 0, 1) 7400; mkSocket (192, 168, 1, 10) 7400] /\
     length (shared_sockets (self w') 7400) = 2%nat).
Proof.
  intros L wl. split.
  - apply (OpenOutputChannel_shared_sockets os_accept_all L (fresh_world false []));
      [reflexivity .. | apply accept_all_accepts].
  - destruct (proj2 (OpenOutputChannel_shared_sockets os_accept_all L
                       (fresh_world false wl) eq_refl eq_refl eq_refl))
      as (w' & E & Hsockets & Hlength).
    + discriminate.
    + intros ip _. apply accept_all_accepts.
    + exists w'. split; [exact E |]. split; [exact Hsockets |].
      apply Hlength.
      * apply (bool_decide_unpack _). vm_compute. exact I.
      * apply (bool_decide_unpack _). vm_compute. exact I.
      * apply (bool_decide_unpack _). vm_compute. exact I.
      * apply (bool_decide_unpack _). vm_compute. exact I.
Defined.

(** C1, as stated, fails: with a whitelist of two entries of which only one
    is the address of a host interface, the open succeeds with one socket. *)
Lemma OpenOutputChannel_shared_sockets_counterexample :
  let L := locator_of LOCATOR_KIND_UDPv4 7400 (0, 0, 0, 0) in
  let wl := [(192, 168, 1, 10); (10, 0, 0, 5)] in
  let result := UDPv4Transport.OpenOutputChannel os_accept_all L (fresh_world false wl) in
  length wl = 2%nat /\
  fst result = Returned true /\
  shared_sockets (self (snd result)) 7400 = [mkSocket (192, 168, 1, 10) 7400] /\
  length (shared_sockets (self (snd result)) 7400) <> 2%nat.
Proof. vm_compute. repeat split; discriminate. Qed.

(** * Further properties *)

(** ** The socket set-up, call by call *)


Lemma attempt_calls (os : OS) (calls : list os_call) (log : os_log) :
  fst <$> fst (attempt os log calls) `prefix_of` calls.
Proof.
  revert log. induction calls as [| c calls IH]; intros log; cbn.
  - reflexivity.
  - destruct (os_accepts os log c).
    + specialize (IH (log ++ [(c, true)])).
      destruct (attempt os (log ++ [(c, true)]) calls) as [evs ok]. cbn in *.
      now apply prefix_cons.
    + cbn. apply prefix_cons, prefix_nil.
Qed.

Lemma OpenAndBindInputSocket_exact (os : OS) (p : Z) (w : World) :
  UDPv4Transport.OpenAndBindInputSocket os p w
  = let '(evs, ok) := attempt os (oslog w) (input_socket_calls (self w) p) in
    (if ok then Returned (mkSocket address_v4_any (to_uint16 p)) else Raised system_error,
     mkWorld (self w) (oslog w ++ evs)).
Proof.
  unfold UDPv4Transport.OpenAndBindInputSocket, UDPv4Transport.sys, bind, gets, ret,
    log_call. cbn.
  repeat (destruct (os_accepts os _ _); cbn; [| now rewrite <- ?app_assoc]).
  now rewrite <- !app_assoc.
Qed.

Lemma OpenAndBindUnicastOutputSocket_exact (os : OS) (ip : address_v4) (p : Z)
    (w : World) :
  UDPv4Transport.OpenAndBindUnicastOutputSocket os ip p w
  = let '(evs, ok) := attempt os (oslog w) (output_socket_calls (self w) ip p) in
    (if ok then Returned (output_socket p ip) else Raised system_error,
     mkWorld (self w) (oslog w ++ evs)).
Proof.
  unfold UDPv4Transport.OpenAndBindUnicastOutputSocket, UDPv4Transport.sys, bind, gets,
    ret, log_call. cbn.
  repeat (destruct (os_accepts os _ _); cbn; [| now rewrite <- ?app_assoc]).
  now rewrite <- !app_assoc.
Qed.

Lemma OpenAndBindInputSockets_exact (os : OS) (p : Z) (w : World) :
  UDPv4Transport.OpenAndBindInputSockets os p w
  = let '(evs, ok) := attempt os (oslog w) (input_socket_calls (self w) p) in
    (Returned ok,
     set_mInputSockets
       (if ok then map_emplace p (mkSocket address_v4_any (to_uint16 p)) else delete p)
       (mkWorld (self w) (oslog w ++ evs))).
Proof.
  unfold UDPv4Transport.OpenAndBindInputSockets, try_catch, bind at 1.
  rewrite OpenAndBindInputSocket_exact.
  destruct (attempt os (oslog w) (input_socket_calls (self w) p)) as [evs []]; reflexivity.
Qed.

(** ** Opening input channels, in full *)

Lemma OpenInputChannel_unsupported (os : OS) (locator : Locator_t) (w : World) :
  UDPv4Transport.IsLocatorSupported locator = false ->
  UDPv4Transport.OpenInputChannel os locator w = (Returned false, w).
Proof. intros Hsup. unfold UDPv4Transport.OpenInputChannel. now rewrite Hsup. Qed.

Lemma OpenInputChannel_again_unicast (os : OS) (locator : Locator_t) (w : World) :
  UDPv4Transport.IsInputChannelOpen (self w) locator = true ->
  IsMulticastAddress locator = false ->
  UDPv4Transport.OpenInputChannel os locator w = (Returned false, w).
Proof.
  intros Hopen Hmc.
  assert (Hsup : UDPv4Transport.IsLocatorSupported locator = true).
  { apply IsInputChannelOpen_true in Hopen as [Hk _]. now apply bool_decide_eq_true. }
  unfold UDPv4Transport.OpenInputChannel. rewrite Hsup. cbn [negb].
  rewrite bind_gets, Hopen. cbn [negb].
  now rewrite bind_ret, bind_gets, Hmc.
Qed.

(** The first open of a port: the set-up calls are attempted in order; if
    one is rejected the call returns false with the transport as it was; if
    all are accepted the socket enters the pool and, for a multicast
    locator, the group is joined on it. *)
Lemma OpenInputChannel_first (os : OS) (locator : Locator_t) (w : World) :
  UDPv4Transport.IsLocatorSupported locator = true ->
  UDPv4Transport.IsInputChannelOpen (self w) locator = false ->
  let s := mkSocket address_v4_any (to_uint16 (port locator)) in
  let join := sys_join_group s (to_IP4 locator) in
  UDPv4Transport.OpenInputChannel os locator w
  = let '(evs, ok) := attempt os (oslog w) (input_socket_calls (self w) (port locator)) in
    let w0 := mkWorld (self w) (oslog w ++ evs) in
    if ok
    then
      let w1 := set_mInputSockets (insert (port locator) s) w0 in
      if IsMulticastAddress locator
      then if os_accepts os (oslog w1) join
           then (Returned true, log_call join true w1)
           else (Raised system_error, log_call join false w1)
      else (Returned true, w1)
    else (Returned false, w0).
Proof.
  intros Hsup Hclosed s join.
  pose proof (IsInputChannelOpen_false _ _ Hsup Hclosed) as Hnone.
  unfold UDPv4Transport.OpenInputChannel. rewrite Hsup. cbn [negb].
  rewrite bind_gets, Hclosed. cbn [negb].
  unfold bind at 1. rewrite OpenAndBindInputSockets_exact.
  destruct (attempt os (oslog w) (input_socket_calls (self w) (port locator)))
    as [evs ok].
  set (w0 := mkWorld (self w) (oslog w ++ evs)).
  destruct ok.
  - replace (set_mInputSockets _ w0)
      with (set_mInputSockets (insert (port locator) s) w0)
      by (unfold set_mInputSockets, update_self, with_mInputSockets, map_emplace;
          cbn; now rewrite Hnone).
    set (w1 := set_mInputSockets _ w0).
    assert (Hs : mInputSockets (self w1) !! port locator = Some s)
      by (subst w1; cbn; apply lookup_insert_eq).
    assert (Hopen1 : UDPv4Transport.IsInputChannelOpen (self w1) locator = true).
    { apply IsInputChannelOpen_true. split; [now apply bool_decide_eq_true in Hsup | eauto]. }
    rewrite bind_gets, Hopen1, andb_true_r.
    destruct (IsMulticastAddress locator); [| reflexivity].
    rewrite (map_at_Some _ _ _ Hs).
    unfold bind at 1. rewrite bind_ret. fold join.
    unfold UDPv4Transport.sys. destruct (os_accepts os (oslog w1) join); reflexivity.
  - replace (set_mInputSockets _ w0) with w0.
    2: { unfold set_mInputSockets, update_self, with_mInputSockets. subst w0. cbn.
         rewrite (delete_id _ _ Hnone). now destruct (self w). }
    rewrite bind_gets.
    replace (UDPv4Transport.IsInputChannelOpen (self w0) locator) with false
      by (symmetry; exact Hclosed).
    now rewrite andb_false_r.
Qed.




(** X2: an [OpenInputChannel] that returns false leaves the transport (its
    configuration and its three pools) exactly as it was: an unsupported
    locator, a port already open, or a rejected set-up call whose socket is
    rolled back. *)
Theorem OpenInputChannel_false_unchanged (os : OS) (locator : Locator_t) (w w' : World) :
  UDPv4Transport.OpenInputChannel os locator w = (Returned false, w') ->
  self w' = self w.
Proof.
  intros E.
  destruct (UDPv4Transport.IsLocatorSupported locator) eqn:Hsup;
    [| rewrite OpenInputChannel_unsupported in E by exact Hsup; now injection E as <-].
  destruct (UDPv4Transport.IsInputChannelOpen (self w) locator) eqn:Hopen.
  - destruct (IsMulticastAddress locator) eqn:Hmc.
    + pose proof Hopen as Hopen'.
      apply IsInputChannelOpen_true in Hopen' as [_ [s0 Hs0]].
      rewrite (OpenInputChannel_multicast_again os locator w s0 Hopen Hmc Hs0) in E.
      destruct (os_accepts os _ _); [| discriminate]. now injection E as <-.
    + rewrite OpenInputChannel_again_unicast in E by assumption. now injection E as <-.
  - rewrite (OpenInputChannel_first os locator w Hsup Hopen) in E.
    destruct (attempt os (oslog w) (input_socket_calls (self w) (port locator)))
      as [evs ok]. cbv zeta in E.
    destruct ok.
    + destruct (IsMulticastAddress locator); [| discriminate].
      destruct (os_accepts os _ _); discriminate.
    + now injection E as <-.
Qed.

Lemma OpenInputChannel_false_unchanged_witness :
  let L := locator_of LOCATOR_KIND_UDPv4 7400 (0, 0, 0, 0) in
  let os := os_reject_bind address_v4_any in
  self (snd (UDPv4Transport.OpenInputChannel os L (fresh_world false [])))
  = self (fresh_world false []).
Proof.
  intros L os.
  apply (OpenInputChannel_false_unchanged os L (fresh_world false [])
           (snd (UDPv4Transport.OpenInputChannel os L (fresh_world false [])))).
  vm_compute. reflexivity.
Defined.

(** ** Opening output channels, in full *)

Lemma push_back_output_exact (os : OS) (ip : address_v4) (p : Z) (w : World) :
  UDPv4Transport.push_back_output os ip p w
  = let '(evs, ok) := attempt os (oslog w) (output_socket_calls (self w) ip p) in
    let w0 := mkWorld (self w) (oslog w ++ evs) in
    if ok
    then (Returned tt, set_mOutputSockets (partial_alter (pushed [output_socket p ip]) p) w0)
    else (Raised system_error, set_mOutputSockets (map_subscript p) w0).
Proof.
  unfold UDPv4Transport.push_back_output. rewrite bind_modify.
  unfold bind at 1. rewrite OpenAndBindUnicastOutputSocket_exact.
  change (output_socket_calls (self (set_mOutputSockets (map_subscript p) w)) ip p)
    with (output_socket_calls (self w) ip p).
  change (oslog (set_mOutputSockets (map_subscript p) w)) with (oslog w).
  destruct (attempt os (oslog w) (output_socket_calls (self w) ip p)) as [evs []];
    [| reflexivity].
  cbn. unfold modify, set_mOutputSockets, update_self, with_mOutputSockets. cbn.
  now rewrite push_back_entry.
Qed.

(** The loop over the host interfaces, whenever it runs to its end: every
    allowed interface has added its socket, in order, and every call issued
    was accepted. *)
Lemma bind_allowed_interfaces_returned (os : OS) (p : Z) (t : UDPv4Transport)
    (l : list info_IP) :
  forall w w' : World,
    mInterfaceWhiteList (self w) = mInterfaceWhiteList t ->
    for_each l (fun infoIP =>
      let ip := name infoIP in
      t <~ gets self ;;
      if UDPv4Transport.IsInterfaceAllowed t ip
      then UDPv4Transport.push_back_output os ip p else ret tt) w
    = (Returned tt, w') ->
    self w'
    = with_mOutputSockets
        (partial_alter
           (pushed (output_socket p <$>
                    filter (fun ip => UDPv4Transport.IsInterfaceAllowed t ip = true)
                           (name <$> l))) p)
        (self w).
Proof.
  induction l as [| infoIP l IH]; intros w w' Hwl; cbn [for_each].
  - intros [= <-]. cbn. symmetry. apply with_mOutputSockets_id.
  - cbn [fmap list_fmap]. cbv zeta.
    unfold bind at 1. rewrite bind_gets.
    rewrite (IsInterfaceAllowed_whitelist t (self w) _ Hwl).
    destruct (UDPv4Transport.IsInterfaceAllowed t (name infoIP)) eqn:Hallowed.
    + rewrite filter_cons_True by exact Hallowed.
      rewrite push_back_output_exact.
      destruct (attempt os (oslog w) (output_socket_calls (self w) (name infoIP) p))
        as [evs []]; cbv zeta; [| discriminate].
      intros E. apply IH in E; [| exact Hwl].
      rewrite E. unfold with_mOutputSockets; cbn.
      rewrite partial_alter_partial_alter_eq.
      f_equal. apply partial_alter_ext. intros cur _. apply pushed_cons.
    + rewrite filter_cons_False by (rewrite Hallowed; discriminate).
      cbn [ret]. now apply IH.
Qed.

Lemma OpenAndBindOutputSockets_true (os : OS) (p : Z) (w w' : World) :
  UDPv4Transport.OpenAndBindOutputSockets os p w = (Returned true, w') ->
  self w'
  = with_mOutputSockets (partial_alter (pushed (opened_sockets os (self w) p)) p) (self w).
Proof.
  unfold UDPv4Transport.OpenAndBindOutputSockets, try_catch, opened_sockets.
  rewrite bind_gets.
  destruct (mInterfaceWhiteList (self w)) as [| ip0 wl] eqn:Hwl.
  - unfold bind. rewrite push_back_output_exact.
    destruct (attempt os _ _) as [evs []]; cbv zeta; cbn; [| discriminate].
    now intros [= <-].
  - unfold bind.
    match goal with
    | |- context [for_each ?l ?body w] =>
        destruct (for_each l body w) as [[[] | e |] w1] eqn:E
    end.
    + cbn. intros [= <-].
      now apply (bind_allowed_interfaces_returned os p (self w)) in E.
    + destruct (catch_system_error e); cbn; discriminate.
    + discriminate.
Qed.

Lemma OpenAndBindGranularOutputSocket_true (os : OS) (locator : Locator_t) (w w' : World) :
  UDPv4Transport.OpenAndBindGranularOutputSocket os locator w = (Returned true, w') ->
  UDPv4Transport.IsInterfaceAllowed (self w) (to_IP4 locator) = true /\
  self w'
  = with_mGranularOutputSockets
      (map_emplace locator (output_socket (port locator) (to_IP4 locator))) (self w).
Proof.
  unfold UDPv4Transport.OpenAndBindGranularOutputSocket. rewrite bind_gets.
  destruct (UDPv4Transport.IsInterfaceAllowed (self w) (to_IP4 locator)); cbn [negb];
    [| discriminate].
  unfold try_catch, bind at 1. rewrite OpenAndBindUnicastOutputSocket_exact.
  destruct (attempt os _ _) as [evs []]; cbn; [| discriminate].
  now intros [= <-].
Qed.

Lemma OpenOutputChannel_true (os : OS) (locator : Locator_t) (w w' : World) :
  UDPv4Transport.OpenOutputChannel os locator w = (Returned true, w') ->
  UDPv4Transport.IsLocatorSupported locator = true /\
  UDPv4Transport.IsOutputChannelOpen (self w) locator = false /\
  if mGranularMode (self w)
  then UDPv4Transport.IsInterfaceAllowed (self w) (to_IP4 locator) = true /\
       self w'
       = with_mGranularOutputSockets
           (insert locator (output_socket (port locator) (to_IP4 locator))) (self w)
  else self w'
       = with_mOutputSockets
           (partial_alter (pushed (opened_sockets os (self w) (port locator)))
                          (port locator)) (self w).
Proof.
  unfold UDPv4Transport.OpenOutputChannel. rewrite bind_gets.
  destruct (UDPv4Transport.IsOutputChannelOpen (self w) locator) eqn:Hopen; cbn [orb];
    [discriminate |].
  destruct (UDPv4Transport.IsLocatorSupported locator) eqn:Hsup; cbn [negb];
    [| discriminate].
  destruct (mGranularMode (self w)) eqn:Hmode; intros E; repeat split.
  - now apply OpenAndBindGranularOutputSocket_true in E as [Hallowed _].
  - apply OpenAndBindGranularOutputSocket_true in E as [_ ->].
    unfold UDPv4Transport.IsOutputChannelOpen in Hopen. rewrite Hsup, Hmode in Hopen.
    cbn in Hopen. apply bool_decide_eq_false in Hopen.
    rewrite <- eq_None_not_Some in Hopen.
    unfold with_mGranularOutputSockets, map_emplace. now rewrite Hopen.
  - now apply OpenAndBindOutputSockets_true in E.
Qed.



Lemma Send_closed (os : OS) (sendBuffer : list octet) (sendBufferSize : Z)
    (localLocator remoteLocator : Locator_t) (w : World) :
  UDPv4Transport.IsOutputChannelOpen (self w) localLocator = false ->
  UDPv4Transport.Send os sendBuffer sendBufferSize localLocator remoteLocator w
  = (Returned false, w).
Proof. intros Hclosed. unfold UDPv4Transport.Send. now rewrite bind_gets, Hclosed. Qed.

Lemma Receive_closed (os : OS) (receiveBufferCapacity : Z) (localLocator : Locator_t)
    (args : UDPv4Transport.receive_args) (w : World) :
  UDPv4Transport.IsInputChannelOpen (self w) localLocator = false ->
  UDPv4Transport.Receive os receiveBufferCapacity localLocator args w
  = (Returned (false, args), w).
Proof. intros Hclosed. unfold UDPv4Transport.Receive. now rewrite bind_gets, Hclosed. Qed.

Lemma bind_no_interface (os : OS) (p : Z) (l : list info_IP) (w : World) :
  filter (fun ip => UDPv4Transport.IsInterfaceAllowed (self w) ip = true) (name <$> l) = [] ->
  for_each l (fun infoIP =>
    let ip := name infoIP in
    t <~ gets self ;;
    if UDPv4Transport.IsInterfaceAllowed t ip
    then UDPv4Transport.push_back_output os ip p else ret tt) w
  = (Returned tt, w).
Proof.
  induction l as [| infoIP l IH]; cbn [for_each fmap list_fmap]; [reflexivity |].
  intros Hnone. cbv zeta. unfold bind at 1. rewrite bind_gets.
  destruct (UDPv4Transport.IsInterfaceAllowed (self w) (name infoIP)) eqn:Hallowed.
  - now rewrite filter_cons_True in Hnone by exact Hallowed.
  - rewrite filter_cons_False in Hnone by (rewrite Hallowed; discriminate).
    cbn [ret]. now apply IH.
Qed.

(** X4: in shared mode with a whitelist none of whose addresses belongs to
    a host interface, [OpenOutputChannel] returns true although it makes no
    socket and no pool entry and issues no socket call: the world is
    unchanged, the channel is still not open, and a [Send] on it returns
    false without any transmission. *)
Theorem OpenOutputChannel_no_allowed_interface (os : OS) (locator : Locator_t) (w : World) :
  mGranularMode (self w) = false ->
  UDPv4Transport.IsLocatorSupported locator = true ->
  UDPv4Transport.IsOutputChannelOpen (self w) locator = false ->
  mInterfaceWhiteList (self w) <> [] ->
  allowed_interfaces os (self w) = [] ->
  UDPv4Transport.OpenOutputChannel os locator w = (Returned true, w) /\
  forall (sendBuffer : list octet) (sendBufferSize : Z) (remoteLocator : Locator_t),
    UDPv4Transport.Send os sendBuffer sendBufferSize locator remoteLocator w
    = (Returned false, w).
Proof.
  intros Hmode Hsup Hclosed Hwl Hnone. split.
  - unfold UDPv4Transport.OpenOutputChannel.
    rewrite bind_gets, Hclosed, Hsup, Hmode. cbn [orb negb].
    unfold UDPv4Transport.OpenAndBindOutputSockets.
    apply try_catch_Returned. rewrite bind_gets.
    destruct (mInterfaceWhiteList (self w)) as [| ip0 wl]; [contradiction |].
    now rewrite (bind_Returned _ _ _ _ _ (bind_no_interface os (port locator) _ w Hnone)).
  - intros. now apply Send_closed.
Qed.

Lemma OpenOutputChannel_no_allowed_interface_witness :
  let L := locator_of LOCATOR_KIND_UDPv4 7400 (0, 0, 0, 0) in
  let w := fresh_world false [(10, 0, 0, 5)] in
  UDPv4Transport.OpenOutputChannel os_accept_all L w = (Returned true, w) /\
  forall (sendBuffer : list octet) (sendBufferSize : Z) (remoteLocator : Locator_t),
    UDPv4Transport.Send os_accept_all sendBuffer sendBufferSize L remoteLocator w
    = (Returned false, w).
Proof.
  intros L w.
  apply (OpenOutputChannel_no_allowed_interface os_accept_all L w).
  - reflexivity.
  - reflexivity.
  - reflexivity.
  - discriminate.
  - vm_compute. reflexivity.
Defined.

(** ** How each operation can change the transport *)

Lemma OpenInputChannel_shape (os : OS) (locator : Locator_t) (w : World) :
  let w' := snd (UDPv4Transport.OpenInputChannel os locator w) in
  self w' = self w \/
  (kind locator = LOCATOR_KIND_UDPv4 /\
   mInputSockets (self w) !! port locator = None /\
   self w'
   = with_mInputSockets
       (insert (port locator) (mkSocket address_v4_any (to_uint16 (port locator))))
       (self w)).
Proof.
  cbv zeta.
  destruct (UDPv4Transport.IsLocatorSupported locator) eqn:Hsup;
    [| rewrite OpenInputChannel_unsupported by exact Hsup; now left].
  destruct (UDPv4Transport.IsInputChannelOpen (self w) locator) eqn:Hopen.
  - left. destruct (IsMulticastAddress locator) eqn:Hmc.
    + pose proof Hopen as Hopen'.
      apply IsInputChannelOpen_true in Hopen' as [_ [s0 Hs0]].
      rewrite (OpenInputChannel_multicast_again os locator w s0 Hopen Hmc Hs0).
      now destruct (os_accepts os _ _).
    + now rewrite OpenInputChannel_again_unicast by assumption.
  - rewrite (OpenInputChannel_first os locator w Hsup Hopen).
    destruct (attempt os (oslog w) (input_socket_calls (self w) (port locator)))
      as [evs ok]. cbv zeta.
    destruct ok; [right | now left].
    split; [now apply bool_decide_eq_true in Hsup |].
    split; [now apply IsInputChannelOpen_false |].
    destruct (IsMulticastAddress locator); [destruct (os_accepts os _ _) |]; reflexivity.
Qed.

Lemma CloseInputChannel_shape (locator : Locator_t) (w : World) :
  let w' := snd (UDPv4Transport.CloseInputChannel locator w) in
  self w' = self w \/
  self w' = with_mInputSockets (delete (port locator)) (self w).
Proof.
  cbv zeta. destruct (UDPv4Transport.IsInputChannelOpen (self w) locator) eqn:Hopen.
  - apply IsInputChannelOpen_true in Hopen as [Hkind [s Hs]].
    rewrite (CloseInputChannel_open _ _ s Hkind Hs). now right.
  - rewrite CloseInputChannel_closed by exact Hopen. now left.
Qed.

Lemma OpenOutputChannel_shape (os : OS) (locator : Locator_t) (w : World) :
  let w' := snd (UDPv4Transport.OpenOutputChannel os locator w) in
  self w' = self w \/
  (kind locator = LOCATOR_KIND_UDPv4 /\
   UDPv4Transport.IsOutputChannelOpen (self w) locator = false /\
   if mGranularMode (self w)
   then UDPv4Transport.IsInterfaceAllowed (self w) (to_IP4 locator) = true /\
        self w'
        = with_mGranularOutputSockets
            (insert locator (output_socket (port locator) (to_IP4 locator))) (self w)
   else self w'
        = with_mOutputSockets
            (partial_alter (pushed (opened_sockets os (self w) (port locator)))
                           (port locator)) (self w)).
Proof.
  cbv zeta.
  destruct (OpenOutputChannel_spec os locator w) as (evs & b & w' & E & _ & Hres).
  rewrite E. cbn [snd]. destruct b; [right | now left].
  apply OpenOutputChannel_true in E as (Hsup & Hclosed & Hself).
  split; [now apply bool_decide_eq_true in Hsup |]. split; assumption.
Qed.

Lemma CloseOutputChannel_exact (locator : Locator_t) (w : World) :
  UDPv4Transport.IsOutputChannelOpen (self w) locator = true ->
  UDPv4Transport.CloseOutputChannel locator w
  = (Returned true,
     mkWorld
       (if mGranularMode (self w)
        then with_mGranularOutputSockets (delete locator) (self w)
        else with_mOutputSockets (delete (port locator)) (self w))
       (oslog w ++ flat_map (fun s => [(sys_cancel s, true); (sys_close s, true)])
                            (channel_sockets (self w) locator))).
Proof.
  intros Hopen. unfold UDPv4Transport.CloseOutputChannel, channel_sockets, shared_sockets.
  rewrite bind_gets, Hopen. cbn [negb].
  apply IsOutputChannelOpen_true in Hopen as [Hkind Hentry].
  destruct (mGranularMode (self w)) eqn:Hmode.
  - destruct Hentry as [s Hs]. rewrite (map_at_Some _ _ _ Hs), Hs.
    unfold bind, ret, modify, UDPv4Transport.sys_ok, log_call, set_mGranularOutputSockets,
      update_self. cbn. now rewrite <- app_assoc.
  - destruct Hentry as [l Hl]. rewrite (map_at_Some _ _ _ Hl), Hl.
    unfold bind at 1. rewrite bind_ret. unfold bind at 1. rewrite close_all_sockets.
    reflexivity.
Qed.

Lemma CloseOutputChannel_shape (locator : Locator_t) (w : World) :
  let w' := snd (UDPv4Transport.CloseOutputChannel locator w) in
  self w' = self w \/
  self w' = (if mGranularMode (self w)
             then with_mGranularOutputSockets (delete locator) (self w)
             else with_mOutputSockets (delete (port locator)) (self w)).
Proof.
  cbv zeta. destruct (UDPv4Transport.IsOutputChannelOpen (self w) locator) eqn:Hopen.
  - rewrite CloseOutputChannel_exact by exact Hopen. now right.
  - rewrite CloseOutputChannel_closed by exact Hopen. now left.
Qed.

(** ** Sending *)

Lemma SendThroughSocket_exact (os : OS) (sendBuffer : list octet) (sendBufferSize : Z)
    (remoteLocator : Locator_t) (s : socket) (w : World) :
  let c := sys_send_to s (take (Z.to_nat sendBufferSize) sendBuffer)
             (to_IP4 remoteLocator, to_uint16 (port remoteLocator)) in
  UDPv4Transport.SendThroughSocket os sendBuffer sendBufferSize remoteLocator s w
  = (Returned (os_accepts os (oslog w) c), log_call c (os_accepts os (oslog w) c) w).
Proof.
  cbv zeta. unfold UDPv4Transport.SendThroughSocket, try_catch, bind, UDPv4Transport.sys.
  now destruct (os_accepts os (oslog w) _).
Qed.

Lemma send_through_all_exact (os : OS) (sendBuffer : list octet) (sendBufferSize : Z)
    (remoteLocator : Locator_t) (sockets : list socket) :
  forall (success : bool) (w : World),
    let evs := transmissions os (oslog w) (take (Z.to_nat sendBufferSize) sendBuffer)
                 (to_IP4 remoteLocator, to_uint16 (port remoteLocator)) sockets in
    UDPv4Transport.send_through_all os sendBuffer sendBufferSize remoteLocator sockets
      success w
    = (Returned (success || existsb snd evs), mkWorld (self w) (oslog w ++ evs)).
Proof.
  induction sockets as [| s sockets IH]; intros success w;
    cbn [UDPv4Transport.send_through_all transmissions existsb].
  - cbv zeta. rewrite orb_false_r, app_nil_r. now destruct w.
  - cbv zeta. unfold bind at 1. rewrite SendThroughSocket_exact. cbv zeta.
    rewrite IH. cbn [self oslog log_call snd].
    now rewrite orb_assoc, <- app_assoc.
Qed.

Lemma transmissions_calls (os : OS) (payload : list octet) (dest : endpoint)
    (sockets : list socket) (log : os_log) :
  fst <$> transmissions os log payload dest sockets
  = (fun s => sys_send_to s payload dest) <$> sockets.
Proof.
  revert log. induction sockets as [| s sockets IH]; intros log; cbn; [reflexivity |].
  now rewrite IH.
Qed.

Lemma Send_too_large (os : OS) (sendBuffer : list octet) (sendBufferSize : Z)
    (localLocator remoteLocator : Locator_t) (w : World) :
  mSendBufferSize (self w) < sendBufferSize ->
  UDPv4Transport.Send os sendBuffer sendBufferSize localLocator remoteLocator w
  = (Returned false, w).
Proof.
  intros Hsize. unfold UDPv4Transport.Send. rewrite bind_gets.
  rewrite (bool_decide_eq_true_2 (sendBufferSize > mSendBufferSize (self w))) by lia.
  now rewrite orb_true_r.
Qed.

Lemma Receive_too_small (os : OS) (receiveBufferCapacity : Z) (localLocator : Locator_t)
    (args : UDPv4Transport.receive_args) (w : World) :
  receiveBufferCapacity < mReceiveBufferSize (self w) ->
  UDPv4Transport.Receive os receiveBufferCapacity localLocator args w
  = (Returned (false, args), w).
Proof.
  intros Hsize. unfold UDPv4Transport.Receive. rewrite bind_gets.
  rewrite (bool_decide_eq_true_2 _ Hsize). now rewrite orb_true_r.
Qed.

Lemma Send_open (os : OS) (sendBuffer : list octet) (sendBufferSize : Z)
    (localLocator remoteLocator : Locator_t) (w : World) :
  UDPv4Transport.IsOutputChannelOpen (self w) localLocator = true ->
  sendBufferSize <= mSendBufferSize (self w) ->
  let evs := transmissions os (oslog w) (take (Z.to_nat sendBufferSize) sendBuffer)
               (to_IP4 remoteLocator, to_uint16 (port remoteLocator))
               (channel_sockets (self w) localLocator) in
  UDPv4Transport.Send os sendBuffer sendBufferSize localLocator remoteLocator w
  = (Returned (existsb snd evs), mkWorld (self w) (oslog w ++ evs)).
Proof.
  intros Hopen Hsize evs.
  unfold UDPv4Transport.Send. rewrite bind_gets, Hopen.
  rewrite bool_decide_eq_false_2 by lia. cbn [negb orb].
  subst evs. unfold channel_sockets, shared_sockets.
  apply IsOutputChannelOpen_true in Hopen as [_ Hentry].
  destruct (mGranularMode (self w)).
  - destruct Hentry as [s Hs]. rewrite (map_at_Some _ _ _ Hs), Hs, bind_ret.
    unfold bind. rewrite SendThroughSocket_exact. cbn. now rewrite orb_false_r.
  - destruct Hentry as [l Hl]. rewrite (map_at_Some _ _ _ Hl), Hl, bind_ret.
    now rewrite send_through_all_exact.
Qed.

(** X5: a [Send] on an open output channel whose size is within the bound
    transmits the first [sendBufferSize] bytes of the buffer once on every
    socket of the channel, in pool order, always to the endpoint made of
    bytes 12..15 and the 16-bit port of the remote locator.  A rejected
    transmission does not stop the others.  The call returns true exactly
    when the system accepted at least one, never throws, and leaves the
    transport unchanged. *)
Theorem Send_fan_out (os : OS) (sendBuffer : list octet) (sendBufferSize : Z)
    (localLocator remoteLocator : Locator_t) (w : World) :
  UDPv4Transport.IsOutputChannelOpen (self w) localLocator = true ->
  sendBufferSize <= mSendBufferSize (self w) ->
  let payload := take (Z.to_nat sendBufferSize) sendBuffer in
  let dest := (to_IP4 remoteLocator, to_uint16 (port remoteLocator)) in
  let evs := transmissions os (oslog w) payload dest (channel_sockets (self w) localLocator) in
  UDPv4Transport.Send os sendBuffer sendBufferSize localLocator remoteLocator w
  = (Returned (existsb snd evs), mkWorld (self w) (oslog w ++ evs)) /\
  fst <$> evs
  = (fun s => sys_send_to s payload dest) <$> channel_sockets (self w) localLocator.
Proof.
  intros Hopen Hsize payload dest evs. split; [| apply transmissions_calls].
  now apply Send_open.
Qed.

Lemma Send_fan_out_witness :
  let L := locator_of LOCATOR_KIND_UDPv4 7400 (0, 0, 0, 0) in
  let R := locator_of LOCATOR_KIND_UDPv4 7411 (192, 168, 1, 20) in
  let os := os_reject_bind (10, 0, 0, 5) in
  let w := snd (UDPv4Transport.OpenOutputChannel os L
                  (fresh_world false [(127, 0, 0, 1); (192, 168, 1, 10)])) in
  let evs := [(sys_send_to (mkSocket (127, 0, 0, 1) 7400) [1; 2] ((192, 168, 1, 20), 7411),
               true);
              (sys_send_to (mkSocket (192, 168, 1, 10) 7400) [1; 2] ((192, 168, 1, 20), 7411),
               true)] in
  UDPv4Transport.Send os [1; 2; 3] 2 L R w = (Returned true, mkWorld (self w) (oslog w ++ evs)).
Proof.
  intros L R os w evs.
  apply (proj1 (Send_fan_out os [1; 2; 3] 2 L R w ltac:(vm_compute; reflexivity)
                  ltac:(vm_compute; discriminate))).
Defined.

(** ** Receiving *)

(** X6: [EndpointToLocator] writes the endpoint into a locator of sixteen
    address bytes so that it can be read back: the port is the endpoint's,
    bytes 12..15 are the endpoint's address, and the kind, the first twelve
    bytes and the length of the address are kept. *)
Theorem EndpointToLocator_round_trip (ep : endpoint) (locator : Locator_t) :
  length (address locator) = 16%nat ->
  let locator' := UDPv4Transport.EndpointToLocator ep locator in
  port locator' = snd ep /\
  to_IP4 locator' = fst ep /\
  kind locator' = kind locator /\
  take 12 (address locator') = take 12 (address locator) /\
  length (address locator') = 16%nat.
Proof.
  intros Hlen. destruct locator as [k p a]. destruct ep as [[[[b0 b1] b2] b3] pt].
  cbn in Hlen.
  do 16 (destruct a as [| ? a]; [discriminate |]).
  destruct a; [| discriminate].
  cbn. repeat split.
Qed.

Lemma EndpointToLocator_round_trip_witness :
  let locator' := UDPv4Transport.EndpointToLocator ((192, 168, 1, 20), 7411)
                    (locator_of LOCATOR_KIND_UDPv4 0 (0, 0, 0, 0)) in
  port locator' = 7411 /\
  to_IP4 locator' = (192, 168, 1, 20) /\
  kind locator' = LOCATOR_KIND_UDPv4 /\
  take 12 (address locator') = replicate 12 0 /\
  length (address locator') = 16%nat.
Proof.
  apply (EndpointToLocator_round_trip ((192, 168, 1, 20), 7411)
           (locator_of LOCATOR_KIND_UDPv4 0 (0, 0, 0, 0))).
  reflexivity.
Defined.

Lemma Receive_submitted (os : OS) (receiveBufferCapacity : Z) (localLocator : Locator_t)
    (args : UDPv4Transport.receive_args) (w : World) (s : socket) :
  UDPv4Transport.IsInputChannelOpen (self w) localLocator = true ->
  mReceiveBufferSize (self w) <= receiveBufferCapacity ->
  mInputSockets (self w) !! port localLocator = Some s ->
  let w1 := log_call (sys_async_receive_from s receiveBufferCapacity) true w in
  UDPv4Transport.Receive os receiveBufferCapacity localLocator args w
  = match os_completion os (oslog w1) s with
    | None => (Blocked, w1)
    | Some recv_error =>
        (Returned (false,
                   UDPv4Transport.mkReceiveArgs (UDPv4Transport.receiveBuffer args) 0
                     (UDPv4Transport.remoteLocator args)), w1)
    | Some (recv_datagram data senderEndpoint) =>
        let received := take (Z.to_nat receiveBufferCapacity) data in
        (Returned (true,
                   UDPv4Transport.mkReceiveArgs
                     (received ++ drop (length received) (UDPv4Transport.receiveBuffer args))
                     (Z.of_nat (length received))
                     (UDPv4Transport.EndpointToLocator senderEndpoint
                        (UDPv4Transport.remoteLocator args))), w1)
    end.
Proof.
  intros Hopen Hcap Hs w1.
  unfold UDPv4Transport.Receive. rewrite bind_gets, Hopen.
  rewrite bool_decide_eq_false_2 by lia. cbn [negb orb].
  rewrite bind_gets, Hopen. cbn [negb].
  rewrite (map_at_Some _ _ _ Hs), bind_ret.
  unfold UDPv4Transport.sys_ok, UDPv4Transport.wait_completion, bind. fold w1.
  destruct (os_completion os (oslog w1) s) as [[| data sender] |]; reflexivity.
Qed.

(** X7: when the datagram submitted for arrives, [Receive] returns true;
    the reported size is the smaller of the datagram length and the capacity;
    the buffer starts with that many bytes of the datagram and is unchanged
    behind them; the remote locator carries the sender's port; the transport
    is unchanged and the log gains the one receive request. *)
Theorem Receive_datagram (os : OS) (receiveBufferCapacity : Z) (localLocator : Locator_t)
    (args : UDPv4Transport.receive_args) (w : World) (s : socket)
    (data : list octet) (sender : endpoint) :
  UDPv4Transport.IsInputChannelOpen (self w) localLocator = true ->
  mReceiveBufferSize (self w) <= receiveBufferCapacity ->
  0 <= receiveBufferCapacity ->
  mInputSockets (self w) !! port localLocator = Some s ->
  os_completion os
    (oslog w ++ [(sys_async_receive_from s receiveBufferCapacity, true)]) s
  = Some (recv_datagram data sender) ->
  exists args' : UDPv4Transport.receive_args,
    UDPv4Transport.Receive os receiveBufferCapacity localLocator args w
    = (Returned (true, args'),
       log_call (sys_async_receive_from s receiveBufferCapacity) true w) /\
    UDPv4Transport.receiveBufferSize args'
    = Z.min (Z.of_nat (length data)) receiveBufferCapacity /\
    take (Z.to_nat (UDPv4Transport.receiveBufferSize args'))
         (UDPv4Transport.receiveBuffer args')
    = take (Z.to_nat receiveBufferCapacity) data /\
    drop (Z.to_nat (UDPv4Transport.receiveBufferSize args'))
         (UDPv4Transport.receiveBuffer args')
    = drop (Z.to_nat (UDPv4Transport.receiveBufferSize args'))
           (UDPv4Transport.receiveBuffer args) /\
    UDPv4Transport.remoteLocator args'
    = UDPv4Transport.EndpointToLocator sender (UDPv4Transport.remoteLocator args).
Proof.
  intros Hopen Hcap Hnonneg Hs Hdone.
  rewrite (Receive_submitted os _ _ args w s Hopen Hcap Hs).
  cbv zeta. unfold log_call at 1. cbn [oslog]. rewrite Hdone.
  eexists. split; [reflexivity |]. cbn.
  set (received := take (Z.to_nat receiveBufferCapacity) data).
  rewrite Nat2Z.id.
  repeat split.
  - subst received. rewrite length_take. lia.
  - now rewrite take_app_length.
  - now rewrite drop_app_length.
Qed.

Lemma Receive_datagram_witness :
  let L := locator_of LOCATOR_KIND_UDPv4 7400 (0, 0, 0, 0) in
  let os := mkOS (fun _ _ => true) two_interfaces
              (fun _ _ => Some (recv_datagram [7; 8; 9; 10; 11] ((192, 168, 1, 20), 7411))) in
  let w := snd (UDPv4Transport.OpenInputChannel os L
                  (mkWorld (UDPv4Transport_new (mkDescriptor 65536 4 false [])) [])) in
  let args := UDPv4Transport.mkReceiveArgs [0; 0; 0; 0] 42
                (locator_of LOCATOR_KIND_UDPv4 0 (0, 0, 0, 0)) in
  exists args' : UDPv4Transport.receive_args,
    UDPv4Transport.Receive os 4 L args w
    = (Returned (true, args'),
       log_call (sys_async_receive_from (mkSocket address_v4_any 7400) 4) true w) /\
    UDPv4Transport.receiveBufferSize args' = 4.
Proof.
  intros L os w args.
  destruct (Receive_datagram os 4 L args w (mkSocket address_v4_any 7400) [7; 8; 9; 10; 11]
              ((192, 168, 1, 20), 7411)) as (args' & E & Hsize & _).
  - reflexivity.
  - vm_compute. discriminate.
  - lia.
  - reflexivity.
  - reflexivity.
  - exists args'. split; [exact E | exact Hsize].
Defined.

Lemma Send_returns (os : OS) (sendBuffer : list octet) (sendBufferSize : Z)
    (localLocator remoteLocator : Locator_t) (w : World) :
  exists (b : bool) (w' : World),
    UDPv4Transport.Send os sendBuffer sendBufferSize localLocator remoteLocator w
    = (Returned b, w') /\ self w' = self w.
Proof.
  destruct (UDPv4Transport.IsOutputChannelOpen (self w) localLocator) eqn:Hopen.
  - destruct (decide (sendBufferSize <= mSendBufferSize (self w))) as [Hle | Hgt].
    + rewrite (Send_open os sendBuffer sendBufferSize localLocator remoteLocator w
                 Hopen Hle). eauto.
    + rewrite Send_too_large by lia. eauto.
  - rewrite Send_closed by exact Hopen. eauto.
Qed.

Lemma Receive_never_raises (os : OS) (receiveBufferCapacity : Z) (localLocator : Locator_t)
    (args : UDPv4Transport.receive_args) (w : World) (e : exn) :
  fst (UDPv4Transport.Receive os receiveBufferCapacity localLocator args w) <> Raised e /\
  self (snd (UDPv4Transport.Receive os receiveBufferCapacity localLocator args w)) = self w.
Proof.
  destruct (UDPv4Transport.IsInputChannelOpen (self w) localLocator) eqn:Hopen.
  - destruct (decide (mReceiveBufferSize (self w) <= receiveBufferCapacity))
      as [Hle | Hgt].
    + pose proof Hopen as Hopen'. apply IsInputChannelOpen_true in Hopen' as [_ [s Hs]].
      rewrite (Receive_submitted os _ _ args w s Hopen Hle Hs). cbv zeta.
      destruct (os_completion os _ s) as [[| data sender] |]; cbn; split;
        (discriminate || reflexivity).
    + rewrite Receive_too_small by lia.
      cbn. split; [discriminate | reflexivity].
  - rewrite Receive_closed by exact Hopen. cbn. split; [discriminate | reflexivity].
Qed.

(** X8: [Send] and [Receive] never change the transport and never let an
    exception escape, whatever the system answers: [Send] always returns, and
    [Receive] returns or stays blocked.  The log grows by at most the
    transmissions of [Send], respectively the one request of [Receive]. *)
Theorem transfers_keep_transport (os : OS) (w : World)
    (sendBuffer : list octet) (sendBufferSize receiveBufferCapacity : Z)
    (localLocator remoteLocator : Locator_t) (args : UDPv4Transport.receive_args) :
  (exists b : bool,
     fst (UDPv4Transport.Send os sendBuffer sendBufferSize localLocator remoteLocator w)
     = Returned b) /\
  self (snd (UDPv4Transport.Send os sendBuffer sendBufferSize localLocator remoteLocator w))
  = self w /\
  (forall e : exn,
     fst (UDPv4Transport.Receive os receiveBufferCapacity localLocator args w) <> Raised e) /\
  self (snd (UDPv4Transport.Receive os receiveBufferCapacity localLocator args w)) = self w.
Proof.
  destruct (Send_returns os sendBuffer sendBufferSize localLocator remoteLocator w)
    as (b & w' & E & Hself).
  rewrite E. cbn [fst snd].
  split; [eauto |]. split; [exact Hself |].
  split; [intros e; apply Receive_never_raises | apply (Receive_never_raises _ _ _ _ _ system_error)].
Qed.

(** ** Channels do not interfere *)

Lemma IsInputChannelOpen_lookup (t t' : UDPv4Transport) (locator : Locator_t) :
  mInputSockets t' !! port locator = mInputSockets t !! port locator ->
  UDPv4Transport.IsInputChannelOpen t' locator = UDPv4Transport.IsInputChannelOpen t locator.
Proof. intros E. unfold UDPv4Transport.IsInputChannelOpen. now rewrite E. Qed.

Lemma output_channel_lookup (t t' : UDPv4Transport) (locator : Locator_t) :
  mGranularMode t' = mGranularMode t ->
  mOutputSockets t' !! port locator = mOutputSockets t !! port locator ->
  mGranularOutputSockets t' !! locator = mGranularOutputSockets t !! locator ->
  UDPv4Transport.IsOutputChannelOpen t' locator = UDPv4Transport.IsOutputChannelOpen t locator /\
  channel_sockets t' locator = channel_sockets t locator.
Proof.
  intros Em Eo Eg.
  unfold UDPv4Transport.IsOutputChannelOpen, channel_sockets, shared_sockets.
  now rewrite Em, Eo, Eg.
Qed.

(** X9: opening or closing the input channel of a locator, however the
    call ends, leaves the configuration and both output pools as they were
    and changes no input channel of another port. *)
Theorem input_channels_isolated (os : OS) (locator : Locator_t) (w : World) (c : call) :
  c = call_OpenInputChannel locator \/ c = call_CloseInputChannel locator ->
  let w' := after os c w in
  configuration (self w') = configuration (self w) /\
  mOutputSockets (self w') = mOutputSockets (self w) /\
  mGranularOutputSockets (self w') = mGranularOutputSockets (self w) /\
  forall other : Locator_t,
    port other <> port locator ->
    mInputSockets (self w') !! port other = mInputSockets (self w) !! port other /\
    UDPv4Transport.IsInputChannelOpen (self w') other
    = UDPv4Transport.IsInputChannelOpen (self w) other.
Proof.
  intros Hc w'.
  assert (Hshape : self w' = self w \/
                   exists f, self w' = with_mInputSockets (partial_alter f (port locator)) (self w)).
  { subst w'. destruct Hc as [-> | ->]; cbn [after].
    - destruct (OpenInputChannel_shape os locator w) as [E | (_ & _ & E)]; [now left |].
      right. eexists. exact E.
    - destruct (CloseInputChannel_shape locator w) as [E | E]; [now left |].
      right. eexists. exact E. }
  destruct Hshape as [-> | [f ->]].
  - repeat split; reflexivity.
  - repeat split; try reflexivity.
    + cbn. now rewrite lookup_partial_alter_ne.
    + apply IsInputChannelOpen_lookup. cbn. now rewrite lookup_partial_alter_ne.
Qed.

Lemma input_channels_isolated_witness :
  let L := locator_of LOCATOR_KIND_UDPv4 7400 (0, 0, 0, 0) in
  let L2 := locator_of LOCATOR_KIND_UDPv4 7401 (0, 0, 0, 0) in
  let w := world_with_both L2 in
  let w' := after os_accept_all (call_OpenInputChannel L) w in
  UDPv4Transport.IsInputChannelOpen (self w') L2 = true /\
  mOutputSockets (self w') = mOutputSockets (self w).
Proof.
  intros L L2 w w'.
  destruct (input_channels_isolated os_accept_all L w (call_OpenInputChannel L)
              (or_introl eq_refl)) as (_ & Hout & _ & Hother).
  split; [| exact Hout].
  destruct (Hother L2) as [_ E]; [vm_compute; discriminate |].
  fold w' in E. rewrite E. vm_compute. reflexivity.
Defined.

(** X10: opening or closing the output channel of a locator, however the
    call ends, leaves the configuration and the input pool as they were and
    changes no other output channel: in granular mode the channel of every
    other locator, even one on the same port, and in shared mode the channel
    of every other port, keeps its sockets and stays open or not open. *)
Theorem output_channels_isolated (os : OS) (locator : Locator_t) (w : World) (c : call) :
  c = call_OpenOutputChannel locator \/ c = call_CloseOutputChannel locator ->
  let w' := after os c w in
  configuration (self w') = configuration (self w) /\
  mInputSockets (self w') = mInputSockets (self w) /\
  forall other : Locator_t,
    (if mGranularMode (self w) then other <> locator else port other <> port locator) ->
    channel_sockets (self w') other = channel_sockets (self w) other /\
    UDPv4Transport.IsOutputChannelOpen (self w') other
    = UDPv4Transport.IsOutputChannelOpen (self w) other.
Proof.
  intros Hc w'.
  assert (Hshape : self w' = self w \/
                   if mGranularMode (self w)
                   then exists f, self w'
                                  = with_mGranularOutputSockets (partial_alter f locator) (self w)
                   else exists f, self w'
                                  = with_mOutputSockets (partial_alter f (port locator)) (self w)).
  { subst w'. destruct Hc as [-> | ->]; cbn [after].
    - destruct (OpenOutputChannel_shape os locator w) as [E | (_ & _ & E)]; [now left |].
      right. destruct (mGranularMode (self w)).
      + destruct E as [_ E]. eexists. exact E.
      + eexists. exact E.
    - destruct (CloseOutputChannel_shape locator w) as [E | E]; [now left |].
      right. destruct (mGranularMode (self w)); eexists; exact E. }
  destruct Hshape as [-> | Hshape].
  - repeat split; reflexivity.
  - destruct (mGranularMode (self w)) eqn:Hmode; destruct Hshape as [f ->];
      (split; [unfold configuration; cbn; now rewrite Hmode |]);
      (split; [reflexivity |]); intros other Hother;
      (split; [apply output_channel_lookup | apply output_channel_lookup]);
      cbn; rewrite ?Hmode; try reflexivity;
      now rewrite lookup_partial_alter_ne by congruence.
Qed.

Lemma output_channels_isolated_witness :
  let L1 := locator_of LOCATOR_KIND_UDPv4 7400 (127, 0, 0, 1) in
  let L2 := locator_of LOCATOR_KIND_UDPv4 7400 (192, 168, 1, 10) in
  let w := snd (UDPv4Transport.OpenOutputChannel os_accept_all L1 (world_with_output true L2)) in
  let w' := after os_accept_all (call_CloseOutputChannel L1) w in
  UDPv4Transport.IsOutputChannelOpen (self w) L1 = true /\
  UDPv4Transport.IsOutputChannelOpen (self w') L1 = false /\
  UDPv4Transport.IsOutputChannelOpen (self w') L2 = true.
Proof.
  intros L1 L2 w w'.
  destruct (output_channels_isolated os_accept_all L1 w (call_CloseOutputChannel L1)
              (or_intror eq_refl)) as (_ & _ & Hother).
  split; [vm_compute; reflexivity |]. split; [vm_compute; reflexivity |].
  destruct (Hother L2) as [_ E]; [vm_compute; discriminate |].
  fold w' in E. rewrite E. vm_compute. reflexivity.
Defined.

(** ** Well-formed pools *)






(** ** Rejections that touch nothing *)

Lemma unsupported_not_open (t : UDPv4Transport) (locator : Locator_t) :
  UDPv4Transport.IsLocatorSupported locator = false ->
  UDPv4Transport.IsInputChannelOpen t locator = false /\
  UDPv4Transport.IsOutputChannelOpen t locator = false.
Proof.
  intros Hsup. unfold UDPv4Transport.IsInputChannelOpen, UDPv4Transport.IsOutputChannelOpen.
  now rewrite Hsup.
Qed.

(** X12: for a locator whose kind is not UDPv4, every operation of the
    transport that takes a local locator (opening and closing either kind of
    channel, sending, receiving) returns false and changes nothing: no pool
    entry, no socket call, and the caller's receive parameters untouched. *)
Theorem unsupported_locator_rejected (os : OS) (locator : Locator_t) (w : World)
    (sendBuffer : list octet) (sendBufferSize receiveBufferCapacity : Z)
    (remoteLocator : Locator_t) (args : UDPv4Transport.receive_args) :
  kind locator <> LOCATOR_KIND_UDPv4 ->
  UDPv4Transport.OpenInputChannel os locator w = (Returned false, w) /\
  UDPv4Transport.OpenOutputChannel os locator w = (Returned false, w) /\
  UDPv4Transport.CloseInputChannel locator w = (Returned false, w) /\
  UDPv4Transport.CloseOutputChannel locator w = (Returned false, w) /\
  UDPv4Transport.Send os sendBuffer sendBufferSize locator remoteLocator w
  = (Returned false, w) /\
  UDPv4Transport.Receive os receiveBufferCapacity locator args w
  = (Returned (false, args), w).
Proof.
  intros Hkind.
  assert (Hsup : UDPv4Transport.IsLocatorSupported locator = false)
    by now apply bool_decide_eq_false_2.
  destruct (unsupported_not_open (self w) locator Hsup) as [Hin Hout].
  repeat split.
  - now apply OpenInputChannel_unsupported.
  - unfold UDPv4Transport.OpenOutputChannel. now rewrite bind_gets, Hout, Hsup.
  - now apply CloseInputChannel_closed.
  - now apply CloseOutputChannel_closed.
  - now apply Send_closed.
  - now apply Receive_closed.
Qed.

Lemma unsupported_locator_rejected_witness :
  let L := locator_of 2 7400 (0, 0, 0, 0) in
  let w := world_with_both (locator_of LOCATOR_KIND_UDPv4 7400 (0, 0, 0, 0)) in
  UDPv4Transport.OpenInputChannel os_accept_all L w = (Returned false, w) /\
  UDPv4Transport.CloseOutputChannel L w = (Returned false, w).
Proof.
  intros L w.
  destruct (unsupported_locator_rejected os_accept_all L w [] 0 0 L
              (UDPv4Transport.mkReceiveArgs [] 0 L)) as (H1 & _ & _ & H4 & _).
  - discriminate.
  - split; [exact H1 | exact H4].
Defined.

(** X13: opening a channel that is already open is a failure without
    effect: [OpenOutputChannel] on an open output channel, and
    [OpenInputChannel] on an open input channel with a locator outside the
    multicast range, return false and leave the world (pools and log) as it
    was. *)
Theorem open_again_rejected (os : OS) (locator : Locator_t) (w : World) :
  (UDPv4Transport.IsOutputChannelOpen (self w) locator = true ->
   UDPv4Transport.OpenOutputChannel os locator w = (Returned false, w)) /\
  (UDPv4Transport.IsInputChannelOpen (self w) locator = true ->
   IsMulticastAddress locator = false ->
   UDPv4Transport.OpenInputChannel os locator w = (Returned false, w)).
Proof.
  split.
  - intros Hopen. unfold UDPv4Transport.OpenOutputChannel. now rewrite bind_gets, Hopen.
  - apply OpenInputChannel_again_unicast.
Qed.

Lemma open_again_rejected_witness :
  let L := locator_of LOCATOR_KIND_UDPv4 7400 (0, 0, 0, 0) in
  let L' := locator_of LOCATOR_KIND_UDPv4 7400 (192, 168, 1, 10) in
  let w := world_with_both L in
  UDPv4Transport.OpenOutputChannel os_accept_all L' w = (Returned false, w) /\
  UDPv4Transport.OpenInputChannel os_accept_all L' w = (Returned false, w).
Proof.
  intros L L' w.
  destruct (open_again_rejected os_accept_all L' w) as [Hout Hin].
  split.
  - apply Hout. vm_compute. reflexivity.
  - apply Hin; vm_compute; reflexivity.
Defined.

(** ** Closing, in full *)

(** X14: closing an open channel cancels and then closes every socket the
    channel holds, once each and in pool order, issues no other call,
    removes the channel's entry and changes nothing else in the transport;
    afterwards the channel holds no socket. *)
Theorem close_releases_every_socket (locator : Locator_t) (w : World) :
  (UDPv4Transport.IsInputChannelOpen (self w) locator = true ->
   exists s : socket,
     mInputSockets (self w) !! port locator = Some s /\
     UDPv4Transport.CloseInputChannel locator w
     = (Returned true,
        mkWorld (with_mInputSockets (delete (port locator)) (self w))
                (oslog w ++ [(sys_cancel s, true); (sys_close s, true)]))) /\
  (UDPv4Transport.IsOutputChannelOpen (self w) locator = true ->
   exists w' : World,
     UDPv4Transport.CloseOutputChannel locator w = (Returned true, w') /\
     oslog w'
     = oslog w ++ flat_map (fun s => [(sys_cancel s, true); (sys_close s, true)])
                           (channel_sockets (self w) locator) /\
     self w' = (if mGranularMode (self w)
                then with_mGranularOutputSockets (delete locator) (self w)
                else with_mOutputSockets (delete (port locator)) (self w)) /\
     channel_sockets (self w') locator = []).
Proof.
  split; intros Hopen.
  - apply IsInputChannelOpen_true in Hopen as [Hkind [s Hs]].
    exists s. split; [exact Hs |].
    rewrite (CloseInputChannel_open _ _ s Hkind Hs).
    unfold set_mInputSockets, update_self, log_call. cbn. now rewrite <- app_assoc.
  - rewrite (CloseOutputChannel_exact _ _ Hopen). eexists. split; [reflexivity |].
    cbn [self oslog]. split; [reflexivity |]. split; [reflexivity |].
    unfold channel_sockets, shared_sockets.
    destruct (mGranularMode (self w)) eqn:Hmode; cbn; rewrite Hmode;
      now rewrite lookup_delete_eq.
Qed.

Lemma close_releases_every_socket_witness :
  let L := locator_of LOCATOR_KIND_UDPv4 7400 (0, 0, 0, 0) in
  let w := snd (UDPv4Transport.OpenOutputChannel os_accept_all L
                  (fresh_world false [(127, 0, 0, 1); (192, 168, 1, 10)])) in
  exists w' : World,
    UDPv4Transport.CloseOutputChannel L w = (Returned true, w') /\
    oslog w'
    = oslog w ++ [(sys_cancel (mkSocket (127, 0, 0, 1) 7400), true);
                  (sys_close (mkSocket (127, 0, 0, 1) 7400), true);
                  (sys_cancel (mkSocket (192, 168, 1, 10) 7400), true);
                  (sys_close (mkSocket (192, 168, 1, 10) 7400), true)].
Proof.
  intros L w.
  destruct (proj2 (close_releases_every_socket L w)) as (w' & E & Hlog & _).
  - vm_compute. reflexivity.
  - exists w'. split; [exact E | exact Hlog].
Defined.

(** X15: input channels, and output channels in shared mode, belong to the
    port and not to the locator that opened them: a close through any
    supported locator with the same port returns true and leaves the channel
    not open for every locator of that port. *)
Theorem close_by_any_locator_of_the_port (opened other : Locator_t) (w : World) :
  port other = port opened ->
  kind other = LOCATOR_KIND_UDPv4 ->
  (UDPv4Transport.IsInputChannelOpen (self w) opened = true ->
   exists w' : World,
     UDPv4Transport.CloseInputChannel other w = (Returned true, w') /\
     UDPv4Transport.IsInputChannelOpen (self w') opened = false) /\
  (mGranularMode (self w) = false ->
   UDPv4Transport.IsOutputChannelOpen (self w) opened = true ->
   exists w' : World,
     UDPv4Transport.CloseOutputChannel other w = (Returned true, w') /\
     UDPv4Transport.IsOutputChannelOpen (self w') opened = false).
Proof.
  intros Hport Hkind. split.
  - intros Hopen. apply IsInputChannelOpen_true in Hopen as [_ [s Hs]].
    rewrite <- Hport in Hs.
    rewrite (CloseInputChannel_open _ _ s Hkind Hs). eexists. split; [reflexivity |].
    rewrite Hport. apply IsInputChannelOpen_erased.
  - intros Hmode Hopen.
    assert (Hother : UDPv4Transport.IsOutputChannelOpen (self w) other = true).
    { apply IsOutputChannelOpen_true in Hopen as [_ Hentry].
      apply IsOutputChannelOpen_true. rewrite Hmode in *. now rewrite Hport. }
    rewrite (CloseOutputChannel_exact _ _ Hother), Hmode. eexists. split; [reflexivity |].
    unfold UDPv4Transport.IsOutputChannelOpen. cbn. rewrite Hmode, Hport, lookup_delete_eq.
    destruct (negb _); [reflexivity |].
    apply bool_decide_eq_false_2. intros [? ?]; discriminate.
Qed.

Lemma close_by_any_locator_of_the_port_witness :
  let L := locator_of LOCATOR_KIND_UDPv4 7400 (239, 255, 0, 1) in
  let other := locator_of LOCATOR_KIND_UDPv4 7400 (192, 168, 1, 10) in
  exists w' : World,
    UDPv4Transport.CloseInputChannel other (world_with_input L) = (Returned true, w') /\
    UDPv4Transport.IsInputChannelOpen (self w') L = false.
Proof.
  intros L other.
  apply (proj1 (close_by_any_locator_of_the_port L other (world_with_input L)
                  eq_refl eq_refl)).
  vm_compute. reflexivity.
Defined.

(** ** Matching and normalising locators *)

(** X16: [DoLocatorsMatch] is an equivalence on locators in either mode:
    equality of the whole locator in granular mode, equality of the ports in
    shared mode. *)
Theorem DoLocatorsMatch_equivalence (t : UDPv4Transport) (a b c : Locator_t) :
  UDPv4Transport.DoLocatorsMatch t a a = true /\
  UDPv4Transport.DoLocatorsMatch t a b = UDPv4Transport.DoLocatorsMatch t b a /\
  (UDPv4Transport.DoLocatorsMatch t a b = true ->
   UDPv4Transport.DoLocatorsMatch t b c = true ->
   UDPv4Transport.DoLocatorsMatch t a c = true) /\
  (UDPv4Transport.DoLocatorsMatch t a b = true <->
   if mGranularMode t then a = b else port a = port b).
Proof.
  unfold UDPv4Transport.DoLocatorsMatch.
  destruct (mGranularMode t); rewrite ?bool_decide_eq_true; repeat split;
    try congruence; try (apply bool_decide_ext; split; congruence);
    try (now apply bool_decide_eq_true_2).
Qed.

Lemma DoLocatorsMatch_equivalence_witness :
  let t := self (fresh_world false []) in
  let a := locator_of LOCATOR_KIND_UDPv4 7400 (239, 255, 0, 1) in
  let b := locator_of LOCATOR_KIND_UDPv4 7400 (0, 0, 0, 0) in
  let c := locator_of LOCATOR_KIND_UDPv4 7400 (192, 168, 1, 10) in
  UDPv4Transport.DoLocatorsMatch t a c = true.
Proof.
  intros t a b c.
  destruct (DoLocatorsMatch_equivalence t a b c) as (_ & _ & Htrans & _).
  apply Htrans; reflexivity.
Defined.

(** X17: locators of one kind that match denote the same channels: the
    same input channel and the same output sockets.  The converse fails in
    granular mode: there two different locators with one port never match,
    yet they share one input channel, because input sockets are kept per
    port in both modes. *)
Theorem matching_locators_share_channels (t : UDPv4Transport) (a b : Locator_t) :
  kind a = kind b ->
  (UDPv4Transport.DoLocatorsMatch t a b = true ->
   UDPv4Transport.IsInputChannelOpen t a = UDPv4Transport.IsInputChannelOpen t b /\
   UDPv4Transport.IsOutputChannelOpen t a = UDPv4Transport.IsOutputChannelOpen t b /\
   channel_sockets t a = channel_sockets t b) /\
  (mGranularMode t = true -> a <> b -> port a = port b ->
   UDPv4Transport.DoLocatorsMatch t a b = false /\
   UDPv4Transport.IsInputChannelOpen t a = UDPv4Transport.IsInputChannelOpen t b).
Proof.
  intros Hkind.
  assert (Hin : port a = port b ->
                UDPv4Transport.IsInputChannelOpen t a = UDPv4Transport.IsInputChannelOpen t b).
  { intros Hport. unfold UDPv4Transport.IsInputChannelOpen, UDPv4Transport.IsLocatorSupported.
    now rewrite Hkind, Hport. }
  split.
  - unfold UDPv4Transport.DoLocatorsMatch, UDPv4Transport.IsOutputChannelOpen,
      UDPv4Transport.IsLocatorSupported, channel_sockets.
    destruct (mGranularMode t); rewrite bool_decide_eq_true.
    + now intros ->.
    + intros Hport. split; [now apply Hin |]. now rewrite Hkind, Hport.
  - intros Hmode Hne Hport. split; [| now apply Hin].
    unfold UDPv4Transport.DoLocatorsMatch. rewrite Hmode. now apply bool_decide_eq_false_2.
Qed.

Lemma matching_locators_share_channels_witness :
  let a := locator_of LOCATOR_KIND_UDPv4 7400 (239, 255, 0, 1) in
  let b := locator_of LOCATOR_KIND_UDPv4 7400 (239, 255, 0, 2) in
  let t := self (snd (UDPv4Transport.OpenInputChannel os_accept_all a (fresh_world true []))) in
  UDPv4Transport.DoLocatorsMatch t a b = false /\
  UDPv4Transport.IsInputChannelOpen t a = UDPv4Transport.IsInputChannelOpen t b.
Proof.
  intros a b t.
  apply (proj2 (matching_locators_share_channels t a b eq_refl)).
  - reflexivity.
  - discriminate.
  - reflexivity.
Defined.

(** X18: on supported locators [RemoteToMainLocal] is idempotent and yields
    the wildcard locator of the same port: its address always passes the
    whitelist, it denotes the same input channel as the remote locator, and
    in shared mode it matches the remote locator and denotes the same output
    channel. *)
Theorem RemoteToMainLocal_main_channel (converted_false remote : Locator_t)
    (t : UDPv4Transport) :
  kind remote = LOCATOR_KIND_UDPv4 ->
  let mainLocal := UDPv4Transport.RemoteToMainLocal converted_false remote in
  UDPv4Transport.RemoteToMainLocal converted_false mainLocal = mainLocal /\
  to_IP4 mainLocal = address_v4_any /\
  UDPv4Transport.IsInterfaceAllowed t (to_IP4 mainLocal) = true /\
  UDPv4Transport.IsInputChannelOpen t mainLocal = UDPv4Transport.IsInputChannelOpen t remote /\
  (mGranularMode t = false ->
   UDPv4Transport.DoLocatorsMatch t remote mainLocal = true /\
   UDPv4Transport.IsOutputChannelOpen t mainLocal
   = UDPv4Transport.IsOutputChannelOpen t remote).
Proof.
  intros Hkind. cbv zeta.
  assert (Hsup : UDPv4Transport.IsLocatorSupported remote = true)
    by now apply bool_decide_eq_true_2.
  assert (E : UDPv4Transport.RemoteToMainLocal converted_false remote
              = mkLocator (kind remote) (port remote) (replicate 16 0))
    by (unfold UDPv4Transport.RemoteToMainLocal; now rewrite Hsup).
  rewrite E.
  set (mainLocal := mkLocator (kind remote) (port remote) (replicate 16 0)).
  assert (Hsup' : UDPv4Transport.IsLocatorSupported mainLocal = true)
    by now apply bool_decide_eq_true_2.
  split; [unfold UDPv4Transport.RemoteToMainLocal; now rewrite Hsup' |].
  split; [reflexivity |].
  split; [unfold UDPv4Transport.IsInterfaceAllowed; now destruct (mInterfaceWhiteList t) |].
  split; [unfold UDPv4Transport.IsInputChannelOpen; now rewrite Hsup, Hsup' |].
  intros Hmode. split.
  - unfold UDPv4Transport.DoLocatorsMatch. rewrite Hmode. now apply bool_decide_eq_true_2.
  - unfold UDPv4Transport.IsOutputChannelOpen. now rewrite Hsup, Hsup', Hmode.
Qed.

Lemma RemoteToMainLocal_main_channel_witness :
  let remote := locator_of LOCATOR_KIND_UDPv4 7400 (192, 168, 1, 20) in
  let t := self (world_with_both (locator_of LOCATOR_KIND_UDPv4 7400 (0, 0, 0, 0))) in
  let mainLocal := UDPv4Transport.RemoteToMainLocal (Locator_t_of_port 0) remote in
  UDPv4Transport.IsInputChannelOpen t mainLocal = UDPv4Transport.IsInputChannelOpen t remote /\
  UDPv4Transport.IsOutputChannelOpen t mainLocal = UDPv4Transport.IsOutputChannelOpen t remote.
Proof.
  intros remote t mainLocal.
  destruct (RemoteToMainLocal_main_channel (Locator_t_of_port 0) remote t eq_refl)
    as (_ & _ & _ & Hin & Hshared).
  split; [exact Hin |]. now apply Hshared.
Defined.

(** ** The receiver resource over its life *)

Section AnyTransportMoves.
Context {T : Type} `{TransportInterface T}.

(** Move construction hands the three bound behaviours to the new resource
    and empties the source, for any transport behind the interface. *)
Lemma move_members (uninitialised : bool)
    (r : ReceiverResource.ReceiverResource) :
  let moved := fst (ReceiverResource.move uninitialised r) in
  let source := snd (ReceiverResource.move uninitialised r) in
  (forall n args t, ReceiverResource.Receive moved n args t = ReceiverResource.Receive r n args t) /\
  (forall t l, ReceiverResource.SupportsLocator moved t l = ReceiverResource.SupportsLocator r t l) /\
  (forall t, ReceiverResource.Abort moved t = ReceiverResource.Abort r t) /\
  (forall t, ReceiverResource.destroy moved t = ReceiverResource.destroy r t) /\
  (forall n args t, ReceiverResource.Receive source n args t = (Returned (false, args), t)) /\
  (forall t l, ReceiverResource.SupportsLocator source t l = false) /\
  (forall t, ReceiverResource.Abort source t = (Returned tt, t)) /\
  (forall t, ReceiverResource.destroy source t = (Returned tt, t)).
Proof. cbv zeta. repeat split. Qed.

End AnyTransportMoves.

(** X20: a resource whose constructor succeeded on the UDPv4 transport is
    bound to an open input channel; it supports its own locator, and in
    general exactly the locators [DoLocatorsMatch] pairs with it.  Its
    [Abort] returns and closes that channel; from then on its [Receive]
    returns false with the caller's parameters untouched and without a
    receive request, and a further [Abort] does nothing. *)
Theorem valid_resource_life (os : OS) (locator : Locator_t) (w w1 : World)
    (r : ReceiverResource.ReceiverResource) :
  ReceiverResource.new (H := UDPv4_TransportInterface os) locator w = (Returned r, w1) ->
  ReceiverResource.mValid r = true ->
  UDPv4Transport.IsInputChannelOpen (self w1) locator = true /\
  (forall (t : World) (l : Locator_t),
     ReceiverResource.SupportsLocator (H := UDPv4_TransportInterface os) r t l
     = UDPv4Transport.DoLocatorsMatch (self t) locator l) /\
  ReceiverResource.SupportsLocator (H := UDPv4_TransportInterface os) r w1 locator = true /\
  exists w2 : World,
    ReceiverResource.Abort (H := UDPv4_TransportInterface os) r w1 = (Returned tt, w2) /\
    UDPv4Transport.IsInputChannelOpen (self w2) locator = false /\
    (forall (n : Z) (args : UDPv4Transport.receive_args),
       ReceiverResource.Receive (H := UDPv4_TransportInterface os) r n args w2
       = (Returned (false, args), w2)) /\
    ReceiverResource.Abort (H := UDPv4_TransportInterface os) r w2 = (Returned tt, w2).
Proof.
  intros Hnew Hvalid.
  destruct (new_members (H := UDPv4_TransportInterface os) _ _ _ _ Hnew)
    as [(Hinvalid & _) | (_ & -> & Hopen)]; [congruence |].
  cbn [OpenInputChannel UDPv4_TransportInterface] in Hopen.
  apply OpenInputChannel_true_opens in Hopen.
  split; [exact Hopen |]. split; [reflexivity |].
  split.
  { cbn. unfold UDPv4Transport.DoLocatorsMatch.
    destruct (mGranularMode (self w1)); now apply bool_decide_eq_true_2. }
  destruct (Abort_closes os
              (ReceiverResource.mkReceiverResource true (Some locator) (Some locator)
                 (Some locator)) w1) as (w2 & E & Hclosed).
  specialize (Hclosed locator eq_refl).
  exists w2. split; [exact E |]. split; [exact Hclosed |]. split.
  - intros n args. cbn. now apply Receive_closed.
  - cbn. now rewrite (bind_Returned _ _ _ _ _ (CloseInputChannel_closed _ _ Hclosed)).
Qed.

Lemma valid_resource_life_witness :
  let L := locator_of LOCATOR_KIND_UDPv4 7400 (239, 255, 0, 1) in
  let r := ReceiverResource.mkReceiverResource true (Some L) (Some L) (Some L) in
  let w1 := world_with_input L in
  UDPv4Transport.IsInputChannelOpen (self w1) L = true /\
  exists w2 : World,
    ReceiverResource.Abort (H := UDPv4_TransportInterface os_accept_all) r w1
    = (Returned tt, w2) /\
    UDPv4Transport.IsInputChannelOpen (self w2) L = false.
Proof.
  intros L r w1.
  destruct (valid_resource_life os_accept_all L (fresh_world false []) w1 r)
    as (Hopen & _ & _ & w2 & E & Hclosed & _).
  - vm_compute. reflexivity.
  - reflexivity.
  - split; [exact Hopen |]. exists w2. split; [exact E | exact Hclosed].
Defined.

(** X19: after a move construction the channel has one owner.  For a
    resource bound to an open input channel of the UDPv4 transport, the
    destructor of the moved-from source leaves the world untouched, before
    and after the new resource is destroyed; the destructor of the new
    resource closes the channel, cancelling and closing its socket exactly
    once; and the source answers false to [Receive] and [SupportsLocator]. *)
Theorem moved_resource_closes_once (os : OS) (uninitialised : bool)
    (r : ReceiverResource.ReceiverResource) (locator : Locator_t) (w : World) (s : socket) :
  ReceiverResource.Cleanup r = Some locator ->
  UDPv4Transport.IsInputChannelOpen (self w) locator = true ->
  mInputSockets (self w) !! port locator = Some s ->
  let moved := fst (ReceiverResource.move uninitialised r) in
  let source := snd (ReceiverResource.move uninitialised r) in
  ReceiverResource.destroy (H := UDPv4_TransportInterface os) source w = (Returned tt, w) /\
  (forall n args t,
     ReceiverResource.Receive (H := UDPv4_TransportInterface os) source n args t
     = (Returned (false, args), t)) /\
  (forall t l,
     ReceiverResource.SupportsLocator (H := UDPv4_TransportInterface os) source t l = false) /\
  exists w' : World,
    ReceiverResource.destroy (H := UDPv4_TransportInterface os) moved w = (Returned tt, w') /\
    oslog w' = oslog w ++ [(sys_cancel s, true); (sys_close s, true)] /\
    UDPv4Transport.IsInputChannelOpen (self w') locator = false /\
    ReceiverResource.destroy (H := UDPv4_TransportInterface os) source w' = (Returned tt, w').
Proof.
  intros Hcleanup Hopen Hs. cbv zeta.
  split; [reflexivity |]. split; [reflexivity |]. split; [reflexivity |].
  unfold ReceiverResource.move, ReceiverResource.destroy. cbn [fst snd ReceiverResource.Cleanup].
  rewrite Hcleanup. cbn [CloseInputChannel UDPv4_TransportInterface].
  pose proof Hopen as Hopen'. apply IsInputChannelOpen_true in Hopen' as [Hkind _].
  rewrite (bind_Returned _ _ _ _ _ (CloseInputChannel_open _ _ s Hkind Hs)).
  eexists. split; [reflexivity |].
  split; [cbn; now rewrite <- app_assoc |].
  split; [apply IsInputChannelOpen_erased | reflexivity].
Qed.

Lemma moved_resource_closes_once_witness :
  let L := locator_of LOCATOR_KIND_UDPv4 7400 (0, 0, 0, 0) in
  let r := ReceiverResource.mkReceiverResource true (Some L) (Some L) (Some L) in
  let s := mkSocket address_v4_any 7400 in
  let w := world_with_input L in
  exists w' : World,
    ReceiverResource.destroy (H := UDPv4_TransportInterface os_accept_all)
      (fst (ReceiverResource.move false r)) w = (Returned tt, w') /\
    oslog w' = oslog w ++ [(sys_cancel s, true); (sys_close s, true)].
Proof.
  intros L r s w.
  destruct (moved_resource_closes_once os_accept_all false r L w s)
    as (_ & _ & _ & w' & E & Hlog & _).
  - reflexivity.
  - vm_compute. reflexivity.
  - vm_compute. reflexivity.
  - exists w'. split; [exact E | exact Hlog].
Defined.

(** ** Round trips and remaining edges *)




(** X22: [OpenInputChannel] returns unless a group join is rejected.  It
    never blocks; the only exception that can leave it is the
    [system_error] of a rejected join on a multicast locator, never the
    [out_of_range] of the pool lookup; and when that happens the channel is
    open and the rejected join is the last call in the log. *)
Theorem OpenInputChannel_outcomes (os : OS) (locator : Locator_t) (w : World) :
  let r := fst (UDPv4Transport.OpenInputChannel os locator w) in
  let w' := snd (UDPv4Transport.OpenInputChannel os locator w) in
  r <> Blocked /\
  forall e : exn,
    r = Raised e ->
    e = system_error /\
    IsMulticastAddress locator = true /\
    UDPv4Transport.IsInputChannelOpen (self w') locator = true /\
    exists (log : os_log) (s : socket),
      mInputSockets (self w') !! port locator = Some s /\
      oslog w' = log ++ [(sys_join_group s (to_IP4 locator), false)].
Proof.
  cbv zeta.
  destruct (UDPv4Transport.IsLocatorSupported locator) eqn:Hsup;
    [| rewrite OpenInputChannel_unsupported by exact Hsup; split; [| intros e]; discriminate].
  destruct (UDPv4Transport.IsInputChannelOpen (self w) locator) eqn:Hopen.
  - destruct (IsMulticastAddress locator) eqn:Hmc.
    + pose proof Hopen as Hopen'.
      apply IsInputChannelOpen_true in Hopen' as [_ [s0 Hs0]].
      rewrite (OpenInputChannel_multicast_again os locator w s0 Hopen Hmc Hs0).
      destruct (os_accepts os _ _); cbn; (split; [discriminate |]); intros e; [discriminate |].
      intros [= <-]. repeat split; [exact Hopen |]. eauto.
    + rewrite OpenInputChannel_again_unicast by assumption.
      split; [| intros e]; discriminate.
  - rewrite (OpenInputChannel_first os locator w Hsup Hopen).
    destruct (attempt os (oslog w) (input_socket_calls (self w) (port locator)))
      as [evs ok]. cbv zeta.
    destruct ok; [| split; [| intros e]; discriminate].
    destruct (IsMulticastAddress locator); [| split; [| intros e]; discriminate].
    destruct (os_accepts os _ _); cbn [fst snd];
      (split; [discriminate |]); intros e; [discriminate |].
    intros [= <-]. repeat split.
    + apply IsInputChannelOpen_true. cbn. rewrite lookup_insert_eq.
      split; [now apply bool_decide_eq_true in Hsup | eauto].
    + eexists _, _. split; [cbn; apply lookup_insert_eq | reflexivity].
Qed.

(** X23: [OpenOutputChannel] always returns, whatever the system answers:
    every exception of its socket calls is caught.  It returns true only if
    every socket call it issued was accepted, and whenever it returns false
    (unsupported locator, channel already open, address refused by the
    whitelist, rejected call) the transport is exactly as before. *)
Theorem OpenOutputChannel_outcomes (os : OS) (locator : Locator_t) (w : World) :
  exists (issued : os_log) (b : bool) (w' : World),
    UDPv4Transport.OpenOutputChannel os locator w = (Returned b, w') /\
    oslog w' = oslog w ++ issued /\
    (b = true -> accepted issued) /\
    (b = false -> self w' = self w).
Proof.
  destruct (OpenOutputChannel_spec os locator w) as (evs & b & w' & E & Hlog & Hres).
  exists evs, b, w'. split; [exact E |]. split; [exact Hlog |].
  destruct b; split; (discriminate || intros _; exact Hres).
Qed.

(** X24: in granular mode the whitelist is checked on the locator's own
    address before any socket is made: for an address that is neither the
    wildcard nor in a non-empty whitelist, [OpenOutputChannel] returns false
    with the world unchanged, no socket call issued. *)
Theorem granular_open_respects_whitelist (os : OS) (locator : Locator_t) (w : World) :
  mGranularMode (self w) = true ->
  mInterfaceWhiteList (self w) <> [] ->
  to_IP4 locator <> address_v4_any ->
  to_IP4 locator ∉ mInterfaceWhiteList (self w) ->
  UDPv4Transport.OpenOutputChannel os locator w = (Returned false, w).
Proof.
  intros Hmode Hwl Hany Hnotin.
  unfold UDPv4Transport.OpenOutputChannel. rewrite bind_gets.
  destruct (UDPv4Transport.IsOutputChannelOpen (self w) locator || _); [reflexivity |].
  rewrite Hmode. unfold UDPv4Transport.OpenAndBindGranularOutputSocket. rewrite bind_gets.
  replace (UDPv4Transport.IsInterfaceAllowed (self w) (to_IP4 locator)) with false;
    [reflexivity |].
  symmetry. apply not_true_is_false. rewrite (IsInterfaceAllowed_true _ _ Hwl). tauto.
Qed.

Lemma granular_open_respects_whitelist_witness :
  let L := locator_of LOCATOR_KIND_UDPv4 7400 (192, 168, 1, 10) in
  let w := fresh_world true [(127, 0, 0, 1)] in
  UDPv4Transport.OpenOutputChannel os_accept_all L w = (Returned false, w).
Proof.
  intros L w.
  apply (granular_open_respects_whitelist os_accept_all L w).
  - reflexivity.
  - discriminate.
  - discriminate.
  - apply (bool_decide_unpack _). vm_compute. exact I.
Defined.


